(** * mesh_convertor.py: conversion of a Gmsh mesh into two XDMF meshes

    A shallow embedding of [src/mesh_convertor.py] and the properties of
    its command-line run.  The script has two functions, [create_mesh]
    and [main]; both are embedded under their own names.  The Python
    string methods the script calls ([str.endswith], [str.replace]) are
    embedded in [Module PyStr]. *)

From stdpp Require Import gmap strings list.
From Stdlib Require Import ZArith Lia.

Local Open Scope string_scope.

(** ** Python strings *)

(** A Python [str] is the [string] of its characters; the two methods
    below only compare characters for equality. *)
Module PyStr.

(** [strip_prefix p s] is [Some r] exactly when [s = p ++ r]. *)
Fixpoint strip_prefix (p s : string) : option string :=
  match p with
  | EmptyString => Some s
  | String a p' =>
      match s with
      | EmptyString => None
      | String b s' => if Ascii.eqb a b then strip_prefix p' s' else None
      end
  end.

(** [s.endswith(suffix)]: some tail of [s] is [suffix]. *)
Fixpoint endswith (s suffix : string) : bool :=
  if String.eqb s suffix then true
  else match s with
       | EmptyString => false
       | String _ s' => endswith s' suffix
       end.

(** [s.replace("", new)]: [new] goes before every character and at the
    end. *)
Fixpoint intersperse (new s : string) : string :=
  match s with
  | EmptyString => new
  | String c s' => new +:+ String c (intersperse new s')
  end.

(** The scan of [s.replace(old, new)] for a non-empty [old]: left to
    right, every occurrence of [old] that does not overlap an earlier
    replaced one is replaced, and the scan goes on behind it.  [fuel]
    bounds the number of scan steps; each step consumes a character. *)
Fixpoint replace_scan (fuel : nat) (old new s : string) : string :=
  match fuel with
  | O => s
  | S fuel' =>
      match strip_prefix old s with
      | Some rest => new +:+ replace_scan fuel' old new rest
      | None =>
          match s with
          | EmptyString => EmptyString
          | String c s' => String c (replace_scan fuel' old new s')
          end
      end
  end.

(** [s.replace(old, new)] (no count argument: all occurrences). *)
Definition replace (s old new : string) : string :=
  match old with
  | EmptyString => intersperse new s
  | String _ _ => replace_scan (S (String.length s)) old new s
  end.

End PyStr.


(** ** Meshes *)

(** A coordinate: a 64-bit floating-point number, kept as its bit
    pattern.  The script only moves coordinates around. *)
Definition float64 : Type := Z.

(** The length check that every mesh object of the library has passed
    when it was constructed, in the by-kind view of its data: under
    every data key, the array of a kind has as many entries as the kind
    has connectivity rows. *)
Definition tags_match (blocks : gmap string (list (list Z)))
    (by_kind : gmap string (list Z)) : bool :=
  forallb (fun kt : string * list Z =>
             match blocks !! fst kt with
             | Some c => (length c =? length (snd kt))%nat
             | None => true
             end)
          (map_to_list by_kind).

Definition aligned (blocks : gmap string (list (list Z)))
    (data : gmap string (gmap string (list Z))) : bool :=
  forallb (fun kd : string * gmap string (list Z) =>
             tags_match blocks (snd kd))
          (map_to_list data).

(** Modelled from the spec: the mesh object that the mesh library's
    reader returns (the spec's SourceMesh).  [src_points] is the
    two-dimensional coordinate array, one row per point;
    [src_cell_blocks] maps a cell-kind label to the connectivity rows of
    that kind; [src_cell_data] maps a data key (such as
    ["gmsh:physical"]) to the per-kind tag arrays, one tag per
    connectivity row ([src_aligned]). *)
Record SourceMesh : Type := {
  src_points : list (list float64);
  src_cell_blocks : gmap string (list (list Z));
  src_cell_data : gmap string (gmap string (list Z));
  src_aligned : aligned src_cell_blocks src_cell_data = true
}.

(** The mesh object built by
    [meshio.Mesh(points=..., cells={...}, cell_data={...})] in
    [create_mesh]: the three keyword arguments, as given. *)
Record OutputMesh : Type := {
  points : list (list float64);
  cells : gmap string (list (list Z));
  cell_data : gmap string (list (list Z))
}.

(** ** The world of a run *)

(** Python objects live in a heap and are passed by reference. *)
Inductive obj : Type :=
| ObjSource (m : SourceMesh)
| ObjOutput (m : OutputMesh).

Definition loc : Type := nat.

(** What a path of the file system holds. *)
Inductive file : Type :=
| MshFile (m : SourceMesh)      (* a mesh file the reader parses to [m] *)
| XdmfFile (m : OutputMesh)     (* a mesh file written by the writer *)
| OtherFile.                    (* anything the reader cannot parse *)

(** The calls [main] makes, in program order. *)
Inductive event : Type :=
| EvRead (path : string)
| EvCreateMesh (cell_type : string) (prune_z : bool)
| EvWrite (path : string) (m : OutputMesh)
| EvPrint (msg : string).

Record world : Type := {
  heap : list obj;            (* allocation appends; a reference is an index *)
  disk : gmap string file;
  unwritable : gset string;   (* paths at which a write fails *)
  trace : list event          (* call history, oldest first *)
}.

(** The world a process starts in. *)
Definition boot (fs : gmap string file) (ro : gset string) : world :=
  {| heap := []; disk := fs; unwritable := ro; trace := [] |}.

(** ** Exceptions and the monad of the script *)

Inductive exn : Type :=
| Exception (msg : string)        (* [raise Exception(msg)] *)
| SystemExit (code : Z)           (* argparse rejecting the command line *)
| LookupError (what : string)     (* a cell kind or a data key is absent *)
| ReadError (path : string)
| WriteError (path : string)
| TypeError (l : loc)             (* not an object of the expected class *)
| ValueError.                     (* the length check of [meshio.Mesh] *)

Inductive result (A : Type) : Type :=
| Ok (a : A)
| Raise (e : exn).
Arguments Ok {A} a.
Arguments Raise {A} e.

(** A computation runs in a world and returns or raises; the world
    reached is kept in both cases (a raise does not undo a write). *)
Definition M (A : Type) : Type := world -> result A * world.

Definition ret {A} (a : A) : M A := fun w => (Ok a, w).

Definition raise {A} (e : exn) : M A := fun w => (Raise e, w).

Definition bind {A B} (c : M A) (k : A -> M B) : M B :=
  fun w => match c w with
           | (Ok a, w') => k a w'
           | (Raise e, w') => (Raise e, w')
           end.

Definition lift {A} (r : result A) : M A := fun w => (r, w).

Notation "'let*' x ':=' c 'in' k" := (bind c (fun x => k))
  (at level 10, x pattern, c at level 100, k at level 200).

Definition log (e : event) : M unit :=
  fun w => (Ok tt, {| heap := heap w; disk := disk w;
                      unwritable := unwritable w; trace := trace w ++ [e] |}).

Definition alloc (o : obj) : M loc :=
  fun w => (Ok (length (heap w)),
            {| heap := heap w ++ [o]; disk := disk w;
               unwritable := unwritable w; trace := trace w |}).

Definition deref_source (l : loc) : M SourceMesh :=
  fun w => match heap w !! l with
           | Some (ObjSource m) => (Ok m, w)
           | _ => (Raise (TypeError l), w)
           end.

Definition deref_output (l : loc) : M OutputMesh :=
  fun w => match heap w !! l with
           | Some (ObjOutput m) => (Ok m, w)
           | _ => (Raise (TypeError l), w)
           end.

(** ** The mesh library, as the script uses it *)

(** Modelled from the spec: [mesh.get_cells_type(cell_type)], the
    connectivity rows of the block of that kind; a lookup failure when
    the mesh has no block of that kind. *)
Definition get_cells_type (mesh : loc) (cell_type : string)
  : M (list (list Z)) :=
  let* m := deref_source mesh in
  match src_cell_blocks m !! cell_type with
  | Some c => ret c
  | None => raise (LookupError cell_type)
  end.

(** Modelled from the spec: [mesh.get_cell_data(name, cell_type)], the
    tag array of that kind under the data key [name]; a lookup failure
    when the key or the kind is absent. *)
Definition get_cell_data (mesh : loc) (name cell_type : string)
  : M (list Z) :=
  let* m := deref_source mesh in
  match src_cell_data m !! name with
  | None => raise (LookupError name)
  | Some by_kind =>
      match by_kind !! cell_type with
      | Some t => ret t
      | None => raise (LookupError cell_type)
      end
  end.

(** The attribute [mesh.points]. *)
Definition get_points (mesh : loc) : M (list (list float64)) :=
  let* m := deref_source mesh in ret (src_points m).

(** The slice [a[:, :2]] of a two-dimensional array: of every row, the
    first two components (fewer when the row is shorter). *)
Definition first_two_columns (a : list (list float64))
  : list (list float64) :=
  take 2 <$> a.

(** The length check of the constructor [meshio.Mesh]: under every
    data key there is one array per cell block, and each array is as
    long as its block.  The blocks are those of [cells] in the order of
    the mapping; [create_mesh] passes mappings with one entry. *)
Fixpoint lengths_match (arrays : list (list Z))
    (blocks : list (list (list Z))) : bool :=
  match arrays, blocks with
  | [], [] => true
  | a :: arrays', b :: blocks' =>
      (length a =? length b)%nat && lengths_match arrays' blocks'
  | _, _ => false
  end.

Definition consistent (cells : gmap string (list (list Z)))
    (cell_data : gmap string (list (list Z))) : bool :=
  forallb (fun ka : string * list (list Z) =>
             lengths_match (snd ka) (snd <$> map_to_list cells))
          (map_to_list cell_data).

(** The constructor [meshio.Mesh(points=, cells=, cell_data=)]: a
    [ValueError] when a data array and its cell block differ in length,
    else a new object holding the three arguments. *)
Definition Mesh (points : list (list float64))
    (cells : gmap string (list (list Z)))
    (cell_data : gmap string (list (list Z))) : M loc :=
  if consistent cells cell_data
  then alloc (ObjOutput {| points := points; cells := cells;
                           cell_data := cell_data |})
  else raise ValueError.

(** Modelled from the spec: [meshio.read(path)] loads the mesh file at
    [path] into a new mesh object, and fails when there is no such file
    or it does not parse. *)
Definition meshio_read (path : string) : M loc :=
  let* _ := log (EvRead path) in
  fun w => match disk w !! path with
           | Some (MshFile m) => alloc (ObjSource m) w
           | _ => (Raise (ReadError path), w)
           end.

(** Modelled from the spec: [meshio.write(path, mesh)] serialises the
    mesh to the file at [path], and fails when the path cannot be
    written. *)
Definition meshio_write (path : string) (mesh : loc) : M unit :=
  let* m := deref_output mesh in
  let* _ := log (EvWrite path m) in
  fun w => if decide (path ∈ unwritable w)
           then (Raise (WriteError path), w)
           else (Ok tt, {| heap := heap w;
                           disk := <[path := XdmfFile m]> (disk w);
                           unwritable := unwritable w;
                           trace := trace w |}).

Definition print (msg : string) : M unit := log (EvPrint msg).

(** ** create_mesh (lines 15-21) *)

Definition create_mesh (mesh : loc) (cell_type : string) (prune_z : bool)
  : M loc :=
  let* cells := get_cells_type mesh cell_type in
  let* cell_data := get_cell_data mesh "gmsh:physical" cell_type in
  let* points :=
    (if prune_z
     then let* p := get_points mesh in ret (first_two_columns p)
     else get_points mesh) in
  let* out_mesh :=
    Mesh points {[cell_type := cells]} {["name_to_read" := [cell_data]]} in
  ret out_mesh.

(** ** The command line (lines 25-34) *)

(** The options found on the command line, each already converted by its
    [type=]; [None] for an option that is not given.  How argparse
    splits the words of the command line is not part of the model, and
    neither are the command lines it leaves before these values exist:
    [-h], an unknown option, an option without its value, a value that
    [int] refuses. *)
Record cli : Type := {
  opt_mesh_full_path : option string;
  opt_output_full_path : option string;
  opt_mesh_dim : option Z;
  opt_deg : option Z
}.

(** The namespace [parser.parse_args()] returns. *)
Record Namespace : Type := {
  mesh_full_path : string;
  output_full_path : string;
  mesh_dim : Z;
  deg : Z
}.

Definition in_choices (v : Z) (choices : list Z) : bool :=
  existsb (Z.eqb v) choices.

(** [parse_args]: both paths are [required=True]; [--mesh_dim] has
    [default=2, choices=[2, 3]] and [--deg] has
    [default=1, choices=[1, 2]].  argparse exits with status 2 on a
    missing required option or a value outside the choices. *)
Definition parse_args (c : cli) : result Namespace :=
  match opt_mesh_full_path c, opt_output_full_path c with
  | Some i, Some o =>
      let d := default 2%Z (opt_mesh_dim c) in
      let g := default 1%Z (opt_deg c) in
      if in_choices d [2; 3]%Z && in_choices g [1; 2]%Z
      then Ok {| mesh_full_path := i; output_full_path := o;
                 mesh_dim := d; deg := g |}
      else Raise (SystemExit 2)
  | _, _ => Raise (SystemExit 2)
  end.

(** ** main (lines 36-60) *)

(** A call of [create_mesh] from [main], entered in the call history. *)
Definition call_create_mesh (mesh : loc) (cell_type : string)
    (prune_z : bool) : M loc :=
  let* _ := log (EvCreateMesh cell_type prune_z) in
  create_mesh mesh cell_type prune_z.

(** The body of [main] after [args = parser.parse_args()]. *)
Definition main_body (args : Namespace) : M unit :=
  let* _ :=
    (if negb (PyStr.endswith (mesh_full_path args) ".msh")
     then raise (Exception "The input file must have the extension .msh")
     else ret tt) in
  let* _ :=
    (if negb (PyStr.endswith (output_full_path args) ".xdmf")
     then raise (Exception "The output file must have the extension .xdmf")
     else ret tt) in
  let* msh := meshio_read (mesh_full_path args) in
  let prune_z := if (mesh_dim args =? 2)%Z then true else false in
  let* (line_mesh, triangle_mesh) :=
    (if (deg args =? 1)%Z then
       let* line_mesh := call_create_mesh msh "line" prune_z in
       let* triangle_mesh := call_create_mesh msh "triangle" prune_z in
       ret (line_mesh, triangle_mesh)
     else if (deg args =? 2)%Z then
       let* line_mesh := call_create_mesh msh "line3" prune_z in
       let* triangle_mesh := call_create_mesh msh "triangle6" prune_z in
       ret (line_mesh, triangle_mesh)
     else
       raise (Exception
         "Not implemented yet. Type 'msh.cell_data_dict' to know the options.")) in
  let* _ := meshio_write (output_full_path args) triangle_mesh in
  let* _ :=
    meshio_write
      (PyStr.replace (output_full_path args) ".xdmf" "_facet.xdmf")
      line_mesh in
  print "Mesh conversion is done.".

Definition main (argv : cli) : M unit :=
  let* args := lift (parse_args argv) in
  main_body args.

(** ** Definitions used to state the properties *)

(** Following the spec's words: the facet path is the output path with
    its final [".xdmf"] (five characters) replaced by ["_facet.xdmf"]. *)
Definition facet_path_spec (p : string) : string :=
  String.substring 0 (String.length p - 5) p +:+ "_facet.xdmf".

(** The spec's data model of a source mesh: points have two or three
    components. *)
Definition points_2d_or_3d (m : SourceMesh) : Prop :=
  Forall (fun pt : list float64 => length pt = 2 \/ length pt = 3)
         (src_points m).

(** The mesh [create_mesh] builds, as a function of the source mesh it
    is given (see [create_mesh_run]). *)
Definition extract (m : SourceMesh) (cell_type : string) (prune_z : bool)
  : result OutputMesh :=
  match src_cell_blocks m !! cell_type with
  | None => Raise (LookupError cell_type)
  | Some c =>
      match src_cell_data m !! "gmsh:physical" with
      | None => Raise (LookupError "gmsh:physical")
      | Some by_kind =>
          match by_kind !! cell_type with
          | None => Raise (LookupError cell_type)
          | Some t =>
              Ok {| points := if prune_z
                              then first_two_columns (src_points m)
                              else src_points m;
                    cells := {[cell_type := c]};
                    cell_data := {["name_to_read" := [t]]} |}
          end
      end
  end.

(** The spec's table of cell kinds: degree, boundary kind, volume
    kind. *)
Inductive selects : Z -> string -> string -> Prop :=
| selects_linear : selects 1 "line" "triangle"
| selects_quadratic : selects 2 "line3" "triangle6".

(** Observations on a call history. *)
Definition written_paths (t : list event) : list string :=
  omap (fun e => match e with EvWrite p _ => Some p | _ => None end) t.

Definition created_kinds (t : list event) : list string :=
  omap (fun e => match e with EvCreateMesh k _ => Some k | _ => None end) t.

Definition not_implemented : exn :=
  Exception
    "Not implemented yet. Type 'msh.cell_data_dict' to know the options.".

(** The ways a run of [main_body] from [boot fs ro] ends, one
    constructor per exit of the body, with the result and the world
    reached (see [main_body_Run]). *)
Inductive Run (args : Namespace) (fs : gmap string file) (ro : gset string)
  : result unit -> world -> Prop :=
| Run_bad_input :
    PyStr.endswith (mesh_full_path args) ".msh" = false ->
    Run args fs ro
      (Raise (Exception "The input file must have the extension .msh"))
      (boot fs ro)
| Run_bad_output :
    PyStr.endswith (mesh_full_path args) ".msh" = true ->
    PyStr.endswith (output_full_path args) ".xdmf" = false ->
    Run args fs ro
      (Raise (Exception "The output file must have the extension .xdmf"))
      (boot fs ro)
| Run_read_fails :
    PyStr.endswith (mesh_full_path args) ".msh" = true ->
    PyStr.endswith (output_full_path args) ".xdmf" = true ->
    (forall m, fs !! mesh_full_path args <> Some (MshFile m)) ->
    Run args fs ro
      (Raise (ReadError (mesh_full_path args)))
      {| heap := []; disk := fs; unwritable := ro;
         trace := [EvRead (mesh_full_path args)] |}
| Run_bad_deg m :
    PyStr.endswith (mesh_full_path args) ".msh" = true ->
    PyStr.endswith (output_full_path args) ".xdmf" = true ->
    fs !! mesh_full_path args = Some (MshFile m) ->
    deg args <> 1%Z -> deg args <> 2%Z ->
    Run args fs ro
      (Raise not_implemented)
      {| heap := [ObjSource m]; disk := fs; unwritable := ro;
         trace := [EvRead (mesh_full_path args)] |}
| Run_boundary_fails m kb kv e :
    PyStr.endswith (mesh_full_path args) ".msh" = true ->
    PyStr.endswith (output_full_path args) ".xdmf" = true ->
    fs !! mesh_full_path args = Some (MshFile m) ->
    selects (deg args) kb kv ->
    extract m kb (mesh_dim args =? 2)%Z = Raise e ->
    Run args fs ro
      (Raise e)
      {| heap := [ObjSource m]; disk := fs; unwritable := ro;
         trace := [EvRead (mesh_full_path args);
                   EvCreateMesh kb (mesh_dim args =? 2)%Z] |}
| Run_volume_fails m kb kv line e :
    PyStr.endswith (mesh_full_path args) ".msh" = true ->
    PyStr.endswith (output_full_path args) ".xdmf" = true ->
    fs !! mesh_full_path args = Some (MshFile m) ->
    selects (deg args) kb kv ->
    extract m kb (mesh_dim args =? 2)%Z = Ok line ->
    extract m kv (mesh_dim args =? 2)%Z = Raise e ->
    Run args fs ro
      (Raise e)
      {| heap := [ObjSource m; ObjOutput line]; disk := fs;
         unwritable := ro;
         trace := [EvRead (mesh_full_path args);
                   EvCreateMesh kb (mesh_dim args =? 2)%Z;
                   EvCreateMesh kv (mesh_dim args =? 2)%Z] |}
| Run_first_write_fails m kb kv line tri :
    PyStr.endswith (mesh_full_path args) ".msh" = true ->
    PyStr.endswith (output_full_path args) ".xdmf" = true ->
    fs !! mesh_full_path args = Some (MshFile m) ->
    selects (deg args) kb kv ->
    extract m kb (mesh_dim args =? 2)%Z = Ok line ->
    extract m kv (mesh_dim args =? 2)%Z = Ok tri ->
    output_full_path args ∈ ro ->
    Run args fs ro
      (Raise (WriteError (output_full_path args)))
      {| heap := [ObjSource m; ObjOutput line; ObjOutput tri];
         disk := fs; unwritable := ro;
         trace := [EvRead (mesh_full_path args);
                   EvCreateMesh kb (mesh_dim args =? 2)%Z;
                   EvCreateMesh kv (mesh_dim args =? 2)%Z;
                   EvWrite (output_full_path args) tri] |}
| Run_second_write_fails m kb kv line tri :
    PyStr.endswith (mesh_full_path args) ".msh" = true ->
    PyStr.endswith (output_full_path args) ".xdmf" = true ->
    fs !! mesh_full_path args = Some (MshFile m) ->
    selects (deg args) kb kv ->
    extract m kb (mesh_dim args =? 2)%Z = Ok line ->
    extract m kv (mesh_dim args =? 2)%Z = Ok tri ->
    output_full_path args ∉ ro ->
    PyStr.replace (output_full_path args) ".xdmf" "_facet.xdmf" ∈ ro ->
    Run args fs ro
      (Raise (WriteError
                (PyStr.replace (output_full_path args) ".xdmf"
                               "_facet.xdmf")))
      {| heap := [ObjSource m; ObjOutput line; ObjOutput tri];
         disk := <[output_full_path args := XdmfFile tri]> fs;
         unwritable := ro;
         trace := [EvRead (mesh_full_path args);
                   EvCreateMesh kb (mesh_dim args =? 2)%Z;
                   EvCreateMesh kv (mesh_dim args =? 2)%Z;
                   EvWrite (output_full_path args) tri;
                   EvWrite (PyStr.replace (output_full_path args) ".xdmf"
                                          "_facet.xdmf") line] |}
| Run_done m kb kv line tri :
    PyStr.endswith (mesh_full_path args) ".msh" = true ->
    PyStr.endswith (output_full_path args) ".xdmf" = true ->
    fs !! mesh_full_path args = Some (MshFile m) ->
    selects (deg args) kb kv ->
    extract m kb (mesh_dim args =? 2)%Z = Ok line ->
    extract m kv (mesh_dim args =? 2)%Z = Ok tri ->
    output_full_path args ∉ ro ->
    PyStr.replace (output_full_path args) ".xdmf" "_facet.xdmf" ∉ ro ->
    Run args fs ro
      (Ok tt)
      {| heap := [ObjSource m; ObjOutput line; ObjOutput tri];
         disk := <[PyStr.replace (output_full_path args) ".xdmf"
                                 "_facet.xdmf" := XdmfFile line]>
                   (<[output_full_path args := XdmfFile tri]> fs);
         unwritable := ro;
         trace := [EvRead (mesh_full_path args);
                   EvCreateMesh kb (mesh_dim args =? 2)%Z;
                   EvCreateMesh kv (mesh_dim args =? 2)%Z;
                   EvWrite (output_full_path args) tri;
                   EvWrite (PyStr.replace (output_full_path args) ".xdmf"
                                          "_facet.xdmf") line;
                   EvPrint "Mesh conversion is done."] |}.

(** ** The scenarios of the spec *)

(** A source mesh with a ["triangle"] block of 10 elements tagged 1 and
    a ["line"] block of 4 elements tagged 2, 2, 3, 3.  The coordinates
    0.0 and 1.0 are the bit patterns 0 and 4607182418800017408. *)
Definition scenario_mesh : SourceMesh :=
  {| src_points :=
       [[0; 0; 0]; [4607182418800017408; 0; 0];
        [0; 4607182418800017408; 0];
        [4607182418800017408; 4607182418800017408; 0]]%Z;
     src_cell_blocks :=
       {[ "triangle" := replicate 10 [0; 1; 2]%Z;
          "line" := [[0; 1]; [1; 3]; [3; 2]; [2; 0]]%Z ]};
     src_cell_data :=
       {[ "gmsh:physical" :=
            {[ "triangle" := replicate 10 1%Z;
               "line" := [2; 2; 3; 3]%Z ]} ]};
     src_aligned := eq_refl |}.

Definition scenario_fs : gmap string file :=
  {[ "mesh.msh" := MshFile scenario_mesh ]}.

(** [--mesh_full_path mesh.msh --output_full_path out.xdmf --mesh_dim 2
    --deg 1] *)
Definition scenario_argv : cli :=
  {| opt_mesh_full_path := Some "mesh.msh";
     opt_output_full_path := Some "out.xdmf";
     opt_mesh_dim := Some 2%Z; opt_deg := Some 1%Z |}.

Definition scenario_args : Namespace :=
  {| mesh_full_path := "mesh.msh"; output_full_path := "out.xdmf";
     mesh_dim := 2; deg := 1 |}.

(** [--mesh_full_path mesh.xyz --output_full_path out.xdmf] *)
Definition wrong_extension_argv : cli :=
  {| opt_mesh_full_path := Some "mesh.xyz";
     opt_output_full_path := Some "out.xdmf";
     opt_mesh_dim := None; opt_deg := None |}.

Definition wrong_extension_args : Namespace :=
  {| mesh_full_path := "mesh.xyz"; output_full_path := "out.xdmf";
     mesh_dim := 2; deg := 1 |}.

(** [--mesh_full_path mesh.msh --output_full_path out.xdmf --deg 2] *)
Definition quadratic_argv : cli :=
  {| opt_mesh_full_path := Some "mesh.msh";
     opt_output_full_path := Some "out.xdmf";
     opt_mesh_dim := None; opt_deg := Some 2%Z |}.

(** An output path with [".xdmf"] in a directory name. *)
Definition nested_argv : cli :=
  {| opt_mesh_full_path := Some "mesh.msh";
     opt_output_full_path := Some "a.xdmf/b.xdmf";
     opt_mesh_dim := None; opt_deg := None |}.

(** A world holding the scenario's mesh at reference 0. *)
Definition scenario_loaded : world :=
  {| heap := [ObjSource scenario_mesh]; disk := scenario_fs;
     unwritable := ∅; trace := [] |}.

(** A source mesh whose points have two components. *)
Definition flat_mesh : SourceMesh :=
  {| src_points := [[0; 0]; [4607182418800017408; 0]]%Z;
     src_cell_blocks := {[ "line" := [[0; 1]]%Z ]};
     src_cell_data := {[ "gmsh:physical" := {[ "line" := [7]%Z ]} ]};
     src_aligned := eq_refl |}.

Definition flat_loaded : world :=
  {| heap := [ObjSource flat_mesh]; disk := ∅; unwritable := ∅;
     trace := [] |}.

(** A mesh object with nothing in it. *)
Definition empty_mesh : OutputMesh :=
  {| points := []; cells := ∅; cell_data := ∅ |}.

(** * Properties *)

(** ** Python strings *)

Section StringFacts.

Local Open Scope nat_scope.

Lemma str_app_nil (t : string) : "" +:+ t = t.
Proof. reflexivity. Qed.

Lemma str_app_cons (c : Ascii.ascii) (s t : string) :
  String c s +:+ t = String c (s +:+ t).
Proof. reflexivity. Qed.

Lemma str_length_app (s t : string) :
  String.length (s +:+ t) = String.length s + String.length t.
Proof.
  induction s as [|c s IH]; [reflexivity|].
  rewrite str_app_cons. simpl. now rewrite IH.
Qed.

Lemma str_app_empty_r (s : string) : s +:+ "" = s.
Proof.
  induction s as [|c s IH]; [reflexivity|].
  now rewrite str_app_cons, IH.
Qed.

Lemma strip_prefix_Some (p s r : string) :
  PyStr.strip_prefix p s = Some r <-> s = p +:+ r.
Proof.
  revert s. induction p as [|a p IH]; intros s; simpl.
  - rewrite str_app_nil. split; congruence.
  - rewrite str_app_cons. destruct s as [|b s]; [split; intros ?; discriminate|].
    destruct (Ascii.eqb a b) eqn:E.
    + apply Ascii.eqb_eq in E. subst b. rewrite IH.
      split; [intros ->; reflexivity | intros [= ->]; reflexivity].
    + apply Ascii.eqb_neq in E.
      split; [intros ?; discriminate | intros [= -> _]; congruence].
Qed.

Lemma strip_prefix_self (p : string) : PyStr.strip_prefix p p = Some "".
Proof.
  apply (proj2 (strip_prefix_Some p p "")). now rewrite str_app_empty_r.
Qed.

Lemma endswith_unfold (s suffix : string) :
  PyStr.endswith s suffix =
  if String.eqb s suffix then true
  else match s with
       | EmptyString => false
       | String _ s' => PyStr.endswith s' suffix
       end.
Proof. destruct s; reflexivity. Qed.

Lemma endswith_true (s suffix : string) :
  PyStr.endswith s suffix = true <-> exists p, s = p +:+ suffix.
Proof.
  induction s as [|c s IH]; rewrite endswith_unfold.
  - destruct (String.eqb "" suffix) eqn:E.
    + apply String.eqb_eq in E. subst.
      split; [exists ""; reflexivity | reflexivity].
    + apply String.eqb_neq in E. split; [intros ?; discriminate|].
      intros [p Hp]. destruct p.
      * rewrite str_app_nil in Hp. congruence.
      * rewrite str_app_cons in Hp. discriminate.
  - destruct (String.eqb (String c s) suffix) eqn:E.
    + apply String.eqb_eq in E.
      split; [exists ""; now rewrite E | reflexivity].
    + apply String.eqb_neq in E. rewrite IH. split.
      * intros [p ->]. exists (String c p). reflexivity.
      * intros [p Hp]. destruct p as [|c' p].
        -- rewrite str_app_nil in Hp. congruence.
        -- rewrite str_app_cons in Hp. injection Hp as _ ->. now exists p.
Qed.

Lemma endswith_app (p suffix : string) :
  PyStr.endswith (p +:+ suffix) suffix = true.
Proof. apply (proj2 (endswith_true _ _)). now exists p. Qed.

(** A scan never shortens the string when [new] is at least as long as
    [old]. *)
Lemma replace_scan_length (fuel : nat) (old new s : string) :
  String.length old <= String.length new ->
  String.length s <= String.length (PyStr.replace_scan fuel old new s).
Proof.
  intros Hlen. revert s.
  induction fuel as [|fuel IH]; intros s; simpl; [lia|].
  destruct (PyStr.strip_prefix old s) as [rest|] eqn:E.
  - apply strip_prefix_Some in E. subst s. rewrite !str_length_app.
    specialize (IH rest). lia.
  - destruct s as [|c s]; simpl; [lia|]. specialize (IH s). lia.
Qed.

(** With enough fuel, a string that ends with [old] has an occurrence
    replaced, so the result is longer when [new] is longer than
    [old]. *)
Lemma replace_scan_grows (fuel : nat) (old new s : string) :
  String.length old < String.length new ->
  PyStr.endswith s old = true ->
  String.length s < fuel ->
  String.length s < String.length (PyStr.replace_scan fuel old new s).
Proof.
  intros Hlen. revert s.
  induction fuel as [|fuel IH]; intros s Hend Hfuel; [lia|].
  simpl. destruct (PyStr.strip_prefix old s) as [rest|] eqn:E.
  - apply strip_prefix_Some in E. subst s. rewrite !str_length_app.
    pose proof (replace_scan_length fuel old new rest). lia.
  - rewrite endswith_unfold in Hend.
    destruct (String.eqb s old) eqn:E'.
    + apply String.eqb_eq in E'. subst old.
      rewrite strip_prefix_self in E. discriminate.
    + destruct s as [|c s]; [discriminate|].
      simpl in Hfuel |- *. specialize (IH s Hend). lia.
Qed.

Lemma replace_longer (s old new : string) :
  old <> "" ->
  String.length old < String.length new ->
  PyStr.endswith s old = true ->
  String.length s < String.length (PyStr.replace s old new).
Proof.
  intros Hne Hlen Hend. unfold PyStr.replace.
  destruct old as [|a old]; [congruence|].
  apply replace_scan_grows; [assumption | assumption | lia].
Qed.

(** When [old] occurs in [p ++ old] only as its end, the scan replaces
    that end and nothing else. *)
Lemma replace_scan_empty (fuel : nat) (old new : string) :
  old <> "" -> PyStr.replace_scan fuel old new "" = "".
Proof.
  intros Hne. destruct fuel as [|fuel]; [reflexivity|].
  destruct old as [|a old]; [congruence | reflexivity].
Qed.

Lemma replace_scan_only_final (fuel : nat) (old new p : string) :
  old <> "" ->
  (forall a b, p +:+ old = a +:+ old +:+ b -> b = "") ->
  String.length (p +:+ old) < fuel ->
  PyStr.replace_scan fuel old new (p +:+ old) = p +:+ new.
Proof.
  intros Hne. revert fuel.
  induction p as [|c p IH]; intros fuel Honly Hfuel;
    (destruct fuel as [|fuel]; [lia|]); cbn [PyStr.replace_scan].
  - rewrite !str_app_nil, strip_prefix_self, replace_scan_empty by exact Hne.
    apply str_app_empty_r.
  - destruct (PyStr.strip_prefix old (String c p +:+ old)) as [rest|] eqn:E.
    + apply strip_prefix_Some in E.
      pose proof (Honly "" rest E) as ->.
      apply (f_equal String.length) in E.
      rewrite !str_length_app in E. cbn [String.length] in E. lia.
    + rewrite !str_app_cons. f_equal. apply IH.
      * intros a b Hab. apply (Honly (String c a) b).
        now rewrite !str_app_cons, Hab.
      * rewrite str_app_cons in Hfuel. cbn [String.length] in Hfuel. lia.
Qed.

Lemma substring_prefix (p s : string) :
  String.substring 0 (String.length p) (p +:+ s) = p.
Proof.
  induction p as [|c p IH]; cbn [String.length].
  - rewrite str_app_nil. now destruct s.
  - rewrite str_app_cons. cbn [String.substring]. now rewrite IH.
Qed.

Lemma facet_path_spec_app (p : string) :
  facet_path_spec (p +:+ ".xdmf") = p +:+ "_facet.xdmf".
Proof.
  unfold facet_path_spec. rewrite str_length_app. cbn [String.length].
  replace (String.length p + 5 - 5) with (String.length p) by lia.
  now rewrite substring_prefix.
Qed.

(** For an output path in which [".xdmf"] occurs only as the extension,
    the facet path of [main] is the one the spec describes. *)
Lemma replace_only_final (p : string) :
  (forall a b, p +:+ ".xdmf" = a +:+ ".xdmf" +:+ b -> b = "") ->
  PyStr.replace (p +:+ ".xdmf") ".xdmf" "_facet.xdmf"
  = facet_path_spec (p +:+ ".xdmf").
Proof.
  intros Honly. rewrite facet_path_spec_app. unfold PyStr.replace.
  apply replace_scan_only_final; [discriminate | exact Honly | lia].
Qed.

End StringFacts.

(** ** Runs of the primitives *)

Lemma extract_Ok (m : SourceMesh) (k : string) (pz : bool) (o : OutputMesh) :
  extract m k pz = Ok o <->
  exists c by_kind t,
    src_cell_blocks m !! k = Some c /\
    src_cell_data m !! "gmsh:physical" = Some by_kind /\
    by_kind !! k = Some t /\
    o = {| points := if pz then first_two_columns (src_points m)
                     else src_points m;
           cells := {[k := c]};
           cell_data := {["name_to_read" := [t]]} |}.
Proof.
  unfold extract. split.
  - destruct (src_cell_blocks m !! k) as [c|] eqn:Ec; [|discriminate].
    destruct (src_cell_data m !! "gmsh:physical") as [d|] eqn:Ed;
      [|discriminate].
    destruct (d !! k) as [t|] eqn:Et; [|discriminate].
    intros [= <-]. exists c, d, t. repeat split; assumption.
  - intros (c & d & t & -> & -> & -> & ->). reflexivity.
Qed.

Lemma extract_Raise (m : SourceMesh) (k : string) (pz : bool) (e : exn) :
  extract m k pz = Raise e ->
  e = LookupError k \/ e = LookupError "gmsh:physical".
Proof.
  unfold extract.
  destruct (src_cell_blocks m !! k) as [c|]; [|intros [= <-]; now left].
  destruct (src_cell_data m !! "gmsh:physical") as [d|];
    [|intros [= <-]; now right].
  destruct (d !! k) as [t|]; [discriminate | intros [= <-]; now left].
Qed.

(** Whether [extract] succeeds does not depend on the pruning flag. *)
Lemma extract_Raise_flag (m : SourceMesh) (k : string) (pz pz' : bool) (e : exn) :
  extract m k pz = Raise e -> extract m k pz' = Raise e.
Proof.
  unfold extract.
  destruct (src_cell_blocks m !! k) as [c|]; [|trivial].
  destruct (src_cell_data m !! "gmsh:physical") as [d|]; [|trivial].
  destruct (d !! k) as [t|]; [discriminate | trivial].
Qed.

(** The tags of a kind of a mesh object are as many as its rows. *)
Lemma tags_match_lookup (blocks : gmap string (list (list Z)))
    (by_kind : gmap string (list Z)) (k : string) (c : list (list Z))
    (t : list Z) :
  tags_match blocks by_kind = true ->
  blocks !! k = Some c -> by_kind !! k = Some t ->
  length c = length t.
Proof.
  unfold tags_match. intros H Hc Ht.
  rewrite forallb_forall in H. specialize (H (k, t)).
  cbn [fst snd] in H. rewrite Hc in H. apply Nat.eqb_eq, H.
  apply list_elem_of_In, elem_of_map_to_list. exact Ht.
Qed.

Lemma source_aligned (m : SourceMesh) (key k : string)
    (by_kind : gmap string (list Z)) (c : list (list Z)) (t : list Z) :
  src_cell_data m !! key = Some by_kind ->
  src_cell_blocks m !! k = Some c ->
  by_kind !! k = Some t ->
  length c = length t.
Proof.
  intros Hd Hc Ht. pose proof (src_aligned m) as H. unfold aligned in H.
  rewrite forallb_forall in H. specialize (H (key, by_kind)).
  cbn [snd] in H. eapply tags_match_lookup; [apply H | exact Hc | exact Ht].
  apply list_elem_of_In, elem_of_map_to_list. exact Hd.
Qed.

(** The check of the constructor on the mappings [create_mesh] passes:
    one block, one array. *)
Lemma consistent_single (k key : string) (c : list (list Z)) (t : list Z) :
  consistent {[k := c]} {[key := [t]]} = (length t =? length c)%nat.
Proof.
  unfold consistent. rewrite !map_to_list_singleton.
  cbn [forallb fmap list_fmap snd lengths_match].
  now rewrite !andb_true_r.
Qed.

(** What the constructor returns has passed the check. *)
Lemma Mesh_Ok (pts : list (list float64))
    (cs cd : gmap string (list (list Z))) (w w' : world) (l : loc) :
  Mesh pts cs cd w = (Ok l, w') ->
  consistent cs cd = true /\
  heap w' !! l
    = Some (ObjOutput {| points := pts; cells := cs; cell_data := cd |}).
Proof.
  unfold Mesh. destruct (consistent cs cd); [|discriminate].
  unfold alloc. intros [= <- <-]. split; [reflexivity|].
  cbn [heap]. now apply list_lookup_middle.
Qed.

Lemma Mesh_rejects (pts : list (list float64))
    (cs cd : gmap string (list (list Z))) (w : world) :
  consistent cs cd = false -> Mesh pts cs cd w = (Raise ValueError, w).
Proof. intros H. unfold Mesh. now rewrite H. Qed.

(** With both lookups done, [create_mesh] is the call of the
    constructor on the points, the block and the tags. *)
Lemma create_mesh_constructs (w : world) (l : loc) (m : SourceMesh)
    (k : string) (pz : bool) (c : list (list Z))
    (d : gmap string (list Z)) (t : list Z) :
  heap w !! l = Some (ObjSource m) ->
  src_cell_blocks m !! k = Some c ->
  src_cell_data m !! "gmsh:physical" = Some d ->
  d !! k = Some t ->
  create_mesh l k pz w =
  Mesh (if pz then first_two_columns (src_points m) else src_points m)
       {[k := c]} {["name_to_read" := [t]]} w.
Proof.
  intros H Hc Hd Ht.
  unfold create_mesh, get_cells_type, get_cell_data, get_points, bind,
    deref_source, ret, raise.
  rewrite H, Hc, H, Hd, Ht.
  destruct pz; rewrite H;
    match goal with
    | |- context [Mesh ?pts ?cs ?cd w] =>
        destruct (Mesh pts cs cd w) as [[l1|e] w1]; reflexivity
    end.
Qed.

Lemma create_mesh_run (w : world) (l : loc) (m : SourceMesh)
    (k : string) (pz : bool) :
  heap w !! l = Some (ObjSource m) ->
  create_mesh l k pz w =
  match extract m k pz with
  | Ok o => alloc (ObjOutput o) w
  | Raise e => (Raise e, w)
  end.
Proof.
  intros H.
  unfold create_mesh, extract, get_cells_type, get_cell_data, get_points,
    Mesh, bind, deref_source, ret, raise.
  rewrite H.
  destruct (src_cell_blocks m !! k) as [c|] eqn:Hc; [|reflexivity].
  rewrite H.
  destruct (src_cell_data m !! "gmsh:physical") as [d|] eqn:Hd;
    [|reflexivity].
  destruct (d !! k) as [t|] eqn:Ht; [|reflexivity].
  rewrite consistent_single, (source_aligned m _ _ _ _ _ Hd Hc Ht),
    Nat.eqb_refl.
  destruct pz; rewrite H; reflexivity.
Qed.

(** On a reference that is not a source mesh, [create_mesh] raises and
    leaves the world as it is. *)
Lemma create_mesh_not_source (w : world) (l : loc) (k : string) (pz : bool) :
  (forall m, heap w !! l <> Some (ObjSource m)) ->
  create_mesh l k pz w = (Raise (TypeError l), w).
Proof.
  intros H.
  unfold create_mesh, get_cells_type, bind, deref_source.
  destruct (heap w !! l) as [[m|o]|] eqn:E; [|reflexivity..].
  now destruct (H m).
Qed.

Lemma call_create_mesh_run (w : world) (l : loc) (m : SourceMesh)
    (k : string) (pz : bool) :
  heap w !! l = Some (ObjSource m) ->
  call_create_mesh l k pz w =
  match extract m k pz with
  | Ok o =>
      (Ok (length (heap w)),
       {| heap := heap w ++ [ObjOutput o]; disk := disk w;
          unwritable := unwritable w;
          trace := trace w ++ [EvCreateMesh k pz] |})
  | Raise e =>
      (Raise e,
       {| heap := heap w; disk := disk w; unwritable := unwritable w;
          trace := trace w ++ [EvCreateMesh k pz] |})
  end.
Proof.
  intros H. unfold call_create_mesh, bind, log.
  rewrite (create_mesh_run _ l m) by exact H.
  destruct (extract m k pz); reflexivity.
Qed.

Lemma meshio_read_run (w : world) (p : string) :
  meshio_read p w =
  match disk w !! p with
  | Some (MshFile m) =>
      (Ok (length (heap w)),
       {| heap := heap w ++ [ObjSource m]; disk := disk w;
          unwritable := unwritable w; trace := trace w ++ [EvRead p] |})
  | _ =>
      (Raise (ReadError p),
       {| heap := heap w; disk := disk w; unwritable := unwritable w;
          trace := trace w ++ [EvRead p] |})
  end.
Proof.
  unfold meshio_read, bind, log, alloc. simpl.
  destruct (disk w !! p) as [[m| |]|]; reflexivity.
Qed.

Lemma meshio_write_run (w : world) (p : string) (l : loc) (o : OutputMesh) :
  heap w !! l = Some (ObjOutput o) ->
  meshio_write p l w =
  if decide (p ∈ unwritable w)
  then (Raise (WriteError p),
        {| heap := heap w; disk := disk w; unwritable := unwritable w;
           trace := trace w ++ [EvWrite p o] |})
  else (Ok tt,
        {| heap := heap w; disk := <[p := XdmfFile o]> (disk w);
           unwritable := unwritable w;
           trace := trace w ++ [EvWrite p o] |}).
Proof.
  intros H. unfold meshio_write, bind, deref_output, log. rewrite H. simpl.
  destruct (decide (p ∈ unwritable w)); reflexivity.
Qed.

(** ** Runs of main *)

Lemma prune_flag (d : Z) : (if (d =? 2)%Z then true else false) = (d =? 2)%Z.
Proof. now destruct (d =? 2)%Z. Qed.

(** The part of [main_body] that follows the choice of the two cell
    kinds, from the world reached by the read. *)
Lemma selected_Run (args : Namespace) (fs : gmap string file)
    (ro : gset string) (m : SourceMesh) (kb kv : string)
    (r : result unit) (w' : world) :
  PyStr.endswith (mesh_full_path args) ".msh" = true ->
  PyStr.endswith (output_full_path args) ".xdmf" = true ->
  fs !! mesh_full_path args = Some (MshFile m) ->
  selects (deg args) kb kv ->
  (let* (line_mesh, triangle_mesh) :=
     (let* line_mesh := call_create_mesh 0 kb (mesh_dim args =? 2)%Z in
      let* triangle_mesh := call_create_mesh 0 kv (mesh_dim args =? 2)%Z in
      ret (line_mesh, triangle_mesh)) in
   let* _ := meshio_write (output_full_path args) triangle_mesh in
   let* _ :=
     meshio_write
       (PyStr.replace (output_full_path args) ".xdmf" "_facet.xdmf")
       line_mesh in
   print "Mesh conversion is done.")
    {| heap := [ObjSource m]; disk := fs; unwritable := ro;
       trace := [EvRead (mesh_full_path args)] |} = (r, w') ->
  Run args fs ro r w'.
Proof.
  intros Hin Hout Hfs Hsel. set (pz := (mesh_dim args =? 2)%Z).
  unfold bind. rewrite (call_create_mesh_run _ 0 m) by reflexivity.
  cbn [heap disk unwritable trace app length].
  destruct (extract m kb pz) as [line|e] eqn:Eb;
    [|intros [= <- <-]; eapply Run_boundary_fails; eassumption].
  rewrite (call_create_mesh_run _ 0 m) by reflexivity.
  cbn [heap disk unwritable trace app length].
  destruct (extract m kv pz) as [tri|e] eqn:Ev;
    [|intros [= <- <-]; eapply Run_volume_fails; eassumption].
  cbn [ret]. rewrite (meshio_write_run _ _ 2 tri) by reflexivity.
  cbn [heap disk unwritable trace app length].
  destruct (decide (output_full_path args ∈ ro)) as [Hro|Hro];
    [intros [= <- <-]; eapply Run_first_write_fails; eassumption|].
  rewrite (meshio_write_run _ _ 1 line) by reflexivity.
  cbn [heap disk unwritable trace app length].
  destruct (decide (PyStr.replace (output_full_path args) ".xdmf"
                                  "_facet.xdmf" ∈ ro)) as [Hro'|Hro'];
    intros [= <- <-];
    [eapply Run_second_write_fails | eapply Run_done]; eassumption.
Qed.

Lemma main_body_Run (args : Namespace) (fs : gmap string file)
    (ro : gset string) :
  Run args fs ro (fst (main_body args (boot fs ro)))
                 (snd (main_body args (boot fs ro))).
Proof.
  destruct (main_body args (boot fs ro)) as [r w'] eqn:E.
  cbn [fst snd]. revert E.
  unfold main_body. rewrite prune_flag.
  unfold bind at 1.
  destruct (PyStr.endswith (mesh_full_path args) ".msh") eqn:Hin;
    [|intros [= <- <-]; apply Run_bad_input; exact Hin].
  cbn [negb ret]. unfold bind at 1.
  destruct (PyStr.endswith (output_full_path args) ".xdmf") eqn:Hout;
    [|intros [= <- <-]; apply Run_bad_output; assumption].
  cbn [negb ret]. unfold bind at 1. rewrite meshio_read_run.
  cbn [boot heap disk unwritable trace app length].
  destruct (fs !! mesh_full_path args) as [f|] eqn:Hfs;
    [destruct f as [m| |]|];
    try (intros [= <- <-]; apply Run_read_fails; try assumption;
         intros m'; congruence).
  destruct (deg args =? 1)%Z eqn:Hd1; [|destruct (deg args =? 2)%Z eqn:Hd2].
  - apply Z.eqb_eq in Hd1.
    apply (selected_Run args fs ro m "line" "triangle"); try assumption.
    rewrite Hd1. constructor.
  - apply Z.eqb_eq in Hd2.
    apply (selected_Run args fs ro m "line3" "triangle6"); try assumption.
    rewrite Hd2. constructor.
  - unfold bind at 1. cbn [raise]. intros [= <- <-].
    apply Run_bad_deg; try assumption; lia.
Qed.

Lemma main_run (argv : cli) (w : world) :
  main argv w =
  match parse_args argv with
  | Ok args => main_body args w
  | Raise e => (Raise e, w)
  end.
Proof. unfold main, bind, lift. now destruct (parse_args argv). Qed.

(** What argparse guarantees about a namespace it returns. *)
Lemma parse_args_Ok (argv : cli) (args : Namespace) :
  parse_args argv = Ok args ->
  opt_mesh_full_path argv = Some (mesh_full_path args) /\
  opt_output_full_path argv = Some (output_full_path args) /\
  mesh_dim args = default 2%Z (opt_mesh_dim argv) /\
  deg args = default 1%Z (opt_deg argv) /\
  (mesh_dim args = 2 \/ mesh_dim args = 3)%Z /\
  (deg args = 1 \/ deg args = 2)%Z.
Proof.
  unfold parse_args, in_choices.
  destruct (opt_mesh_full_path argv) as [i|]; [|discriminate].
  destruct (opt_output_full_path argv) as [o|]; [|discriminate].
  destruct (_ && _) eqn:E; [|discriminate].
  intros [= <-]. cbn [mesh_full_path output_full_path mesh_dim deg].
  apply andb_prop in E as [E1 E2]. cbn [existsb] in E1, E2.
  repeat split; lia.
Qed.

Lemma parse_args_Raise (argv : cli) (e : exn) :
  parse_args argv = Raise e -> e = SystemExit 2.
Proof.
  unfold parse_args.
  destruct (opt_mesh_full_path argv) as [i|]; [|now intros [= <-]].
  destruct (opt_output_full_path argv) as [o|]; [|now intros [= <-]].
  destruct (_ && _); [discriminate | now intros [= <-]].
Qed.

(** Case analysis on the way the run of [main_body] ends. *)
Ltac run_cases args fs ro :=
  let HR := fresh "HR" in
  pose proof (main_body_Run args fs ro) as HR;
  destruct (main_body args (boot fs ro)) as [? ?];
  cbn [fst snd] in *; destruct HR.

(** The cases of a membership in a call history that is written out. *)
Ltac in_trace H :=
  cbn [trace boot] in H;
  repeat (apply elem_of_cons in H as [H|H]);
  [..|apply elem_of_nil in H; contradiction];
  try discriminate H.

(** The cases of a split [pre ++ e :: post] of a list that is written
    out. *)
Ltac split_trace H pre :=
  cbn [trace boot] in H;
  repeat (destruct pre as [|? pre]; cbn [app] in H;
          [try discriminate H;
           try (let He := fresh "He" in let Hp := fresh "Hp" in
                injection H as He Hp)|
           try discriminate H;
           let He := fresh "He" in injection H as He H]).

(** ** The facet path *)

(** C1 (the code departs from it): the facet path is meant to be the
    output path with only its final [".xdmf"] replaced by
    ["_facet.xdmf"].  [main] calls [str.replace], which rewrites every
    occurrence: for the output path ["a.xdmf/b.xdmf"], which passes the
    extension check, the run writes the boundary mesh to
    ["a_facet.xdmf/b_facet.xdmf"] and not to ["a.xdmf/b_facet.xdmf"]. *)
Theorem C1_facet_path_rewrites_every_occurrence :
  PyStr.endswith "a.xdmf/b.xdmf" ".xdmf" = true /\
  PyStr.replace "a.xdmf/b.xdmf" ".xdmf" "_facet.xdmf"
    = "a_facet.xdmf/b_facet.xdmf" /\
  facet_path_spec "a.xdmf/b.xdmf" = "a.xdmf/b_facet.xdmf" /\
  PyStr.replace "a.xdmf/b.xdmf" ".xdmf" "_facet.xdmf"
    <> facet_path_spec "a.xdmf/b.xdmf" /\
  fst (main nested_argv (boot scenario_fs ∅)) = Ok tt /\
  written_paths (trace (snd (main nested_argv (boot scenario_fs ∅))))
    = ["a.xdmf/b.xdmf"; "a_facet.xdmf/b_facet.xdmf"].
Proof.
  split; [reflexivity|]. split; [reflexivity|]. split; [reflexivity|].
  split; [discriminate|]. split; vm_compute; reflexivity.
Qed.

(** C10: for an output path that ends with [".xdmf"], the facet path
    [main] derives from it is a different path, so the two writes of a
    run never go to the same file. *)
Theorem C10_facet_path_differs (p : string) :
  PyStr.endswith p ".xdmf" = true ->
  PyStr.replace p ".xdmf" "_facet.xdmf" <> p /\
  forall (args : Namespace) (fs : gmap string file) (ro : gset string),
    output_full_path args = p ->
    NoDup (written_paths (trace (snd (main_body args (boot fs ro))))).
Proof.
  intros Hend.
  assert (Hne : PyStr.replace p ".xdmf" "_facet.xdmf" <> p).
  { intros Heq.
    pose proof (replace_longer p ".xdmf" "_facet.xdmf") as Hlong.
    rewrite Heq in Hlong. cbn [String.length] in Hlong.
    specialize (Hlong ltac:(discriminate) ltac:(lia) Hend). lia. }
  split; [exact Hne|].
  intros args fs ro Hp. subst p.
  run_cases args fs ro; cbn [trace boot written_paths omap];
    first [ apply NoDup_nil_2 | apply NoDup_singleton | idtac ].
  all: apply NoDup_cons; split; [|apply NoDup_singleton].
  all: rewrite list_elem_of_singleton; congruence.
Qed.

(** ** Validation *)

(** C6: when the input path does not end with [".msh"] or the output
    path does not end with [".xdmf"], the run raises the exception of
    the extension check and the world is the one the process started
    in: the call history is empty, so no read has been made. *)
Theorem C6_bad_extension_aborts_before_read (argv : cli) (args : Namespace)
    (fs : gmap string file) (ro : gset string) :
  parse_args argv = Ok args ->
  PyStr.endswith (mesh_full_path args) ".msh" = false \/
  PyStr.endswith (output_full_path args) ".xdmf" = false ->
  exists msg,
    main argv (boot fs ro) = (Raise (Exception msg), boot fs ro) /\
    (msg = "The input file must have the extension .msh" \/
     msg = "The output file must have the extension .xdmf") /\
    trace (snd (main argv (boot fs ro))) = [].
Proof.
  intros Hparse Hbad. rewrite main_run, Hparse.
  run_cases args fs ro; try (destruct Hbad; congruence).
  - eexists; repeat split. now left.
  - eexists; repeat split. now right.
Qed.

(** The not-implemented exception is raised only for a degree other
    than 1 and 2. *)
Lemma not_implemented_only_other_deg (args : Namespace)
    (fs : gmap string file) (ro : gset string) :
  fst (main_body args (boot fs ro)) = Raise not_implemented ->
  deg args <> 1%Z /\ deg args <> 2%Z.
Proof.
  run_cases args fs ro; try discriminate.
  - intros _. now split.
  - intros [= ->].
    match goal with H : extract _ _ _ = Raise _ |- _ =>
      apply extract_Raise in H as [H|H]; discriminate H end.
  - intros [= ->].
    match goal with H : extract _ _ _ = Raise _ |- _ =>
      apply extract_Raise in H as [H|H]; discriminate H end.
Qed.

(** C9: with a degree that is 1 or 2, as argparse guarantees, the run
    never ends in the not-implemented exception. *)
Theorem C9_not_implemented_unreachable (args : Namespace)
    (fs : gmap string file) (ro : gset string) :
  (deg args = 1 \/ deg args = 2)%Z ->
  fst (main_body args (boot fs ro)) <> Raise not_implemented.
Proof.
  intros Hdeg Hraise.
  apply not_implemented_only_other_deg in Hraise. lia.
Qed.

(** The branch is there: without the choices of argparse, a degree
    other than 1 and 2 reaches it. *)
Lemma not_implemented_reached (args : Namespace) (fs : gmap string file)
    (ro : gset string) (m : SourceMesh) :
  PyStr.endswith (mesh_full_path args) ".msh" = true ->
  PyStr.endswith (output_full_path args) ".xdmf" = true ->
  fs !! mesh_full_path args = Some (MshFile m) ->
  deg args <> 1%Z -> deg args <> 2%Z ->
  fst (main_body args (boot fs ro)) = Raise not_implemented.
Proof.
  intros Hin Hout Hfs H1 H2.
  run_cases args fs ro; try congruence;
    try (exfalso; eapply H; eassumption);
    match goal with H : selects (deg args) _ _ |- _ =>
      inversion H; congruence end.
Qed.

(** The whole program never ends in it. *)
Lemma main_never_not_implemented (argv : cli) (fs : gmap string file)
    (ro : gset string) :
  fst (main argv (boot fs ro)) <> Raise not_implemented.
Proof.
  rewrite main_run. destruct (parse_args argv) as [args|e] eqn:E.
  - intros Hraise. apply not_implemented_only_other_deg in Hraise.
    apply parse_args_Ok in E. lia.
  - apply parse_args_Raise in E. subst e. discriminate.
Qed.

(** ** create_mesh *)

Lemma first_two_columns_2 (pts : list (list float64)) :
  Forall (fun pt : list float64 => length pt = 2 \/ length pt = 3) pts ->
  Forall (fun pt : list float64 => length pt = 2) (first_two_columns pts).
Proof.
  intros H. unfold first_two_columns. apply Forall_fmap.
  eapply Forall_impl; [exact H|].
  intros pt Hpt. unfold compose. cbv beta in Hpt |- *.
  rewrite length_take. lia.
Qed.

(** In general a pruned point keeps at most two components. *)
Lemma first_two_columns_lookup (pts : list (list float64)) (i : nat)
    (pt : list float64) :
  first_two_columns pts !! i = Some pt ->
  exists pt0, pts !! i = Some pt0 /\ pt = take 2 pt0 /\
              length pt = Nat.min 2 (length pt0).
Proof.
  unfold first_two_columns. rewrite list_lookup_fmap.
  destruct (pts !! i) as [pt0|]; [|discriminate].
  intros [= <-]. exists pt0. repeat split. apply length_take.
Qed.

(** C7: the mesh object [create_mesh] returns has one entry in [cells],
    the cell kind with the connectivity rows of the source, and one
    entry in [cell_data], ["name_to_read"] with a one-element list
    holding the physical tags of the kind of the source; there are as
    many connectivity rows as tags, which is what the constructor
    checks before it returns the object. *)
Theorem C7_output_mesh_shape (w w' : world) (l l' : loc) (m : SourceMesh)
    (k : string) (pz : bool) :
  heap w !! l = Some (ObjSource m) ->
  create_mesh l k pz w = (Ok l', w') ->
  exists (o : OutputMesh) (c : list (list Z))
         (by_kind : gmap string (list Z)) (t : list Z),
    heap w' !! l' = Some (ObjOutput o) /\
    src_cell_blocks m !! k = Some c /\
    src_cell_data m !! "gmsh:physical" = Some by_kind /\
    by_kind !! k = Some t /\
    cells o = {[k := c]} /\
    cell_data o = {["name_to_read" := [t]]} /\
    size (cells o) = 1 /\ size (cell_data o) = 1 /\
    length c = length t.
Proof.
  intros Hl Hrun.
  assert (Hex : exists o, extract m k pz = Ok o).
  { rewrite (create_mesh_run w l m) in Hrun by exact Hl.
    destruct (extract m k pz) as [o|e]; [now exists o | discriminate]. }
  destruct Hex as [o0 Hex].
  apply extract_Ok in Hex as (c & d & t & Hc & Hd & Ht & _).
  rewrite (create_mesh_constructs w l m k pz c d t Hl Hc Hd Ht) in Hrun.
  apply Mesh_Ok in Hrun as [Hcheck Hobj].
  rewrite consistent_single in Hcheck. apply Nat.eqb_eq in Hcheck.
  eexists. exists c, d, t. split; [exact Hobj|].
  cbn [cells cell_data]. rewrite !map_size_singleton. now repeat split.
Qed.

(** C8: a call of [create_mesh] changes nothing that exists: every
    object of the heap, the source mesh among them, is as before; the
    files, the unwritable paths and the call history are as before; the
    only effect is the allocation of the returned mesh object, when the
    call returns. *)
Theorem C8_create_mesh_frame (w : world) (l : loc) (k : string) (pz : bool) :
  let r := fst (create_mesh l k pz w) in
  let w' := snd (create_mesh l k pz w) in
  (forall (l0 : loc) (o : obj),
      heap w !! l0 = Some o -> heap w' !! l0 = Some o) /\
  heap w' !! l = heap w !! l /\
  ((exists e, r = Raise e) /\ heap w' = heap w \/
   (exists o, r = Ok (length (heap w)) /\
              heap w' = (heap w ++ [ObjOutput o])%list)) /\
  disk w' = disk w /\ unwritable w' = unwritable w /\ trace w' = trace w.
Proof.
  cbn zeta.
  destruct (heap w !! l) as [ob|] eqn:Hl.
  2: { rewrite create_mesh_not_source by (intros m; congruence).
       cbn [fst snd]. repeat split; eauto. }
  destruct ob as [m|o0].
  2: { rewrite create_mesh_not_source by (intros m; congruence).
       cbn [fst snd]. repeat split; eauto. }
  rewrite (create_mesh_run w l m) by exact Hl.
  destruct (extract m k pz) as [o|e]; unfold alloc; cbn [fst snd heap disk unwritable trace].
  - repeat split; try reflexivity.
    + intros l0 ob. apply lookup_app_l_Some.
    + now apply lookup_app_l_Some.
    + right. now exists o.
  - repeat split; eauto.
Qed.

(** ** The pruning flag *)

(** C4: the flag passed to [create_mesh] is true exactly when the
    declared dimension is 2 and false exactly when it is 3, whatever the
    mesh holds; for a source mesh with points of two or three
    components, every point of a mesh that the run writes has two
    components when the dimension is 2, and the written points are the
    source points when it is 3; the same holds of [create_mesh] called
    with the flag true or false. *)
Theorem C4_prune_z (argv : cli) (args : Namespace) (fs : gmap string file)
    (ro : gset string) :
  parse_args argv = Ok args ->
  let w' := snd (main argv (boot fs ro)) in
  (forall (k : string) (pz : bool),
      EvCreateMesh k pz ∈ trace w' ->
      (pz = true <-> mesh_dim args = 2%Z) /\
      (pz = false <-> mesh_dim args = 3%Z)) /\
  (forall (m : SourceMesh) (p : string) (o : OutputMesh),
      fs !! mesh_full_path args = Some (MshFile m) ->
      points_2d_or_3d m ->
      EvWrite p o ∈ trace w' ->
      (mesh_dim args = 2%Z ->
       Forall (fun pt : list float64 => length pt = 2) (points o)) /\
      (mesh_dim args = 3%Z -> points o = src_points m)) /\
  (forall (w w1 : world) (l l' : loc) (m : SourceMesh) (k : string)
          (pz : bool),
      heap w !! l = Some (ObjSource m) ->
      points_2d_or_3d m ->
      create_mesh l k pz w = (Ok l', w1) ->
      exists o : OutputMesh,
        heap w1 !! l' = Some (ObjOutput o) /\
        (pz = true ->
         Forall (fun pt : list float64 => length pt = 2) (points o)) /\
        (pz = false -> points o = src_points m)).
Proof.
  intros Hparse. cbn zeta. rewrite main_run, Hparse.
  apply parse_args_Ok in Hparse as (_ & _ & _ & _ & Hdim & _).
  assert (Hflag : ((mesh_dim args =? 2)%Z = true <-> mesh_dim args = 2%Z) /\
                  ((mesh_dim args =? 2)%Z = false <-> mesh_dim args = 3%Z)).
  { split; [apply Z.eqb_eq|]. rewrite Z.eqb_neq. lia. }
  assert (Hpts : forall m k o,
             points_2d_or_3d m ->
             extract m k (mesh_dim args =? 2)%Z = Ok o ->
             (mesh_dim args = 2%Z ->
              Forall (fun pt : list float64 => length pt = 2) (points o)) /\
             (mesh_dim args = 3%Z -> points o = src_points m)).
  { intros m k o Hm Ho.
    apply extract_Ok in Ho as (c & d & t & _ & _ & _ & ->).
    cbn [points]. split; intros Hd.
    - apply Hflag in Hd. rewrite Hd. now apply first_two_columns_2.
    - apply Hflag in Hd. now rewrite Hd. }
  split; [|split].
  - intros k pz Hin.
    run_cases args fs ro; in_trace Hin; injection Hin as _ ->; exact Hflag.
  - intros m p o Hfs Hm Hin.
    run_cases args fs ro; in_trace Hin; injection Hin as _ ->;
      match goal with H : fs !! _ = Some (MshFile ?m') |- _ =>
        assert (m' = m) by congruence; subst m' end;
      eapply Hpts; eassumption.
  - intros w w1 l l' m k pz Hl Hm Hrun.
    rewrite (create_mesh_run w l m) in Hrun by exact Hl.
    destruct (extract m k pz) as [o|e] eqn:E; [|discriminate].
    unfold alloc in Hrun. injection Hrun as <- <-.
    exists o. cbn [heap]. split; [apply list_lookup_middle; reflexivity|].
    apply extract_Ok in E as (c & d & t & _ & _ & _ & ->). cbn [points].
    split; intros ->; [now apply first_two_columns_2 | reflexivity].
Qed.

(** ** The run *)

(** [create_mesh] raises on a source mesh exactly when [extract] does,
    whatever the flag. *)
Lemma create_mesh_raises (w : world) (l : loc) (m : SourceMesh) (k : string)
    (pz pz' : bool) (e : exn) :
  heap w !! l = Some (ObjSource m) ->
  fst (create_mesh l k pz w) = Raise e ->
  extract m k pz' = Raise e.
Proof.
  intros Hl. rewrite (create_mesh_run w l m) by exact Hl.
  destruct (extract m k pz) as [o|e'] eqn:E; [discriminate|].
  intros [= ->]. eapply extract_Raise_flag; eassumption.
Qed.

Lemma extract_cells (m : SourceMesh) (k : string) (pz : bool)
    (o : OutputMesh) :
  extract m k pz = Ok o ->
  exists c, src_cell_blocks m !! k = Some c /\ cells o = {[k := c]}.
Proof.
  intros H. apply extract_Ok in H as (c & d & t & Hc & _ & _ & ->).
  now exists c.
Qed.

Lemma selects_fun (d : Z) (kb kv kb' kv' : string) :
  selects d kb kv -> selects d kb' kv' -> kb' = kb /\ kv' = kv.
Proof. intros H H'. destruct H; inversion H'; now split. Qed.

(** C3: the cell kinds passed to [create_mesh] depend on the degree
    only: with degree 1 they are ["line"] and ["triangle"], with degree
    2 they are ["line3"] and ["triangle6"], and no other kind is passed;
    in a run that succeeds both kinds of the degree are extracted, the
    first as the boundary mesh (written to the facet path) and the
    second as the volume mesh (written to the output path). *)
Theorem C3_kinds_by_degree (argv : cli) (args : Namespace)
    (fs : gmap string file) (ro : gset string) :
  parse_args argv = Ok args ->
  let r := fst (main argv (boot fs ro)) in
  let w' := snd (main argv (boot fs ro)) in
  (forall (k : string) (pz : bool),
      EvCreateMesh k pz ∈ trace w' ->
      (deg args = 1%Z /\ (k = "line" \/ k = "triangle")) \/
      (deg args = 2%Z /\ (k = "line3" \/ k = "triangle6"))) /\
  (r = Ok tt ->
   exists (kb kv : string) (line tri : OutputMesh)
          (cb cv : list (list Z)),
     ((deg args = 1%Z /\ kb = "line" /\ kv = "triangle") \/
      (deg args = 2%Z /\ kb = "line3" /\ kv = "triangle6")) /\
     created_kinds (trace w') = [kb; kv] /\
     EvWrite (output_full_path args) tri ∈ trace w' /\
     cells tri = {[kv := cv]} /\
     EvWrite (PyStr.replace (output_full_path args) ".xdmf" "_facet.xdmf")
             line ∈ trace w' /\
     cells line = {[kb := cb]}).
Proof.
  intros Hparse. cbn zeta. rewrite main_run, Hparse. split.
  - intros k pz Hin.
    run_cases args fs ro; in_trace Hin; injection Hin as -> _;
      match goal with H : selects (deg args) _ _ |- _ =>
        destruct H; auto end.
  - intros Hok. run_cases args fs ro; try discriminate Hok.
    match goal with
    | Hb : extract _ ?kb _ = Ok ?line, Hv : extract _ ?kv _ = Ok ?tri,
      Hs : selects _ ?kb ?kv |- _ =>
        apply extract_cells in Hb as (cb & _ & Hcb);
        apply extract_cells in Hv as (cv & _ & Hcv);
        exists kb, kv, line, tri, cb, cv;
        split; [destruct Hs; auto|]
    end.
    cbn [trace created_kinds omap].
    split; [reflexivity|]. split; [|split; [assumption|split; [|assumption]]].
    + do 3 apply list_elem_of_further. apply list_elem_of_here.
    + do 4 apply list_elem_of_further. apply list_elem_of_here.
Qed.

(** C2: in the call history of a run every write comes after both
    calls of [create_mesh] and none follows it; when [create_mesh]
    raises on the loaded mesh for either of the two kinds of the degree,
    the run raises, makes no write and leaves the files as they were; a
    run that succeeds makes exactly two writes, to the output path and
    to the facet path, which differ, and these two files are what it
    leaves on the disk. *)
Theorem C2_extract_both_then_write (argv : cli) (args : Namespace)
    (fs : gmap string file) (ro : gset string) :
  parse_args argv = Ok args ->
  let r := fst (main argv (boot fs ro)) in
  let w' := snd (main argv (boot fs ro)) in
  (forall (pre post : list event) (p : string) (o : OutputMesh),
      trace w' = (pre ++ EvWrite p o :: post)%list ->
      exists kb kv : string,
        selects (deg args) kb kv /\
        created_kinds pre = [kb; kv] /\ created_kinds post = []) /\
  (forall (m : SourceMesh) (kb kv k : string) (pz : bool) (w : world)
          (l : loc) (e : exn),
      fs !! mesh_full_path args = Some (MshFile m) ->
      selects (deg args) kb kv ->
      k = kb \/ k = kv ->
      heap w !! l = Some (ObjSource m) ->
      fst (create_mesh l k pz w) = Raise e ->
      (exists e', r = Raise e') /\
      written_paths (trace w') = [] /\
      disk w' = fs) /\
  (r = Ok tt ->
   exists line tri : OutputMesh,
     written_paths (trace w') =
       [output_full_path args;
        PyStr.replace (output_full_path args) ".xdmf" "_facet.xdmf"] /\
     output_full_path args <>
       PyStr.replace (output_full_path args) ".xdmf" "_facet.xdmf" /\
     disk w' =
       <[PyStr.replace (output_full_path args) ".xdmf" "_facet.xdmf"
           := XdmfFile line]>
         (<[output_full_path args := XdmfFile tri]> fs)).
Proof.
  intros Hparse. cbn zeta. rewrite main_run, Hparse. split; [|split].
  - intros pre post p o Ht.
    run_cases args fs ro; split_trace Ht pre; subst;
      do 2 eexists; (split; [eassumption|]); split; reflexivity.
  - intros m kb kv k pz w l e Hfs Hsel Hk Hl Hraise.
    apply (create_mesh_raises w l m k pz (mesh_dim args =? 2)%Z) in Hraise;
      [|exact Hl].
    run_cases args fs ro;
      try (repeat split; [eexists; reflexivity|reflexivity..]);
      exfalso;
      match goal with H : _ !! _ = Some (MshFile ?m') |- _ =>
        assert (m' = m) by congruence; subst m' end;
      match goal with H : selects _ ?a ?b |- _ =>
        destruct (selects_fun _ _ _ _ _ Hsel H) as [-> ->] end;
      destruct Hk as [-> | ->]; congruence.
  - intros Hok. run_cases args fs ro; try discriminate Hok.
    do 2 eexists. cbn [trace disk written_paths omap].
    split; [reflexivity|]. split; [|reflexivity].
    intros Heq. symmetry in Heq. revert Heq.
    pose proof (replace_longer (output_full_path args) ".xdmf" "_facet.xdmf")
      as Hlong.
    intros Heq. rewrite Heq in Hlong. cbn [String.length] in Hlong.
    match goal with H : PyStr.endswith _ ".xdmf" = true |- _ =>
      specialize (Hlong ltac:(discriminate) ltac:(lia) H) end.
    lia.
Qed.

(** C5 (as the code does it): a run that succeeds has passed both
    extension checks and its calls are, in this order: the read of the
    input path, [create_mesh] for the boundary kind, [create_mesh] for
    the volume kind, the write of the volume mesh to the output path,
    the write of the boundary mesh to the facet path, and the print of
    the completion notice. *)
Theorem C5_order_of_steps (argv : cli) (args : Namespace)
    (fs : gmap string file) (ro : gset string) :
  parse_args argv = Ok args ->
  fst (main argv (boot fs ro)) = Ok tt ->
  exists (m : SourceMesh) (kb kv : string) (line tri : OutputMesh)
         (cb cv : list (list Z)),
    PyStr.endswith (mesh_full_path args) ".msh" = true /\
    PyStr.endswith (output_full_path args) ".xdmf" = true /\
    fs !! mesh_full_path args = Some (MshFile m) /\
    selects (deg args) kb kv /\
    src_cell_blocks m !! kb = Some cb /\ cells line = {[kb := cb]} /\
    src_cell_blocks m !! kv = Some cv /\ cells tri = {[kv := cv]} /\
    trace (snd (main argv (boot fs ro))) =
      [EvRead (mesh_full_path args);
       EvCreateMesh kb (mesh_dim args =? 2)%Z;
       EvCreateMesh kv (mesh_dim args =? 2)%Z;
       EvWrite (output_full_path args) tri;
       EvWrite (PyStr.replace (output_full_path args) ".xdmf" "_facet.xdmf")
               line;
       EvPrint "Mesh conversion is done."].
Proof.
  intros Hparse. rewrite main_run, Hparse. intros Hok.
  run_cases args fs ro; try discriminate Hok.
  match goal with
  | Hb : extract ?m ?kb _ = Ok ?line, Hv : extract ?m ?kv _ = Ok ?tri |- _ =>
      apply extract_cells in Hb as (cb & Hsb & Hcb);
      apply extract_cells in Hv as (cv & Hsv & Hcv);
      exists m, kb, kv, line, tri, cb, cv
  end.
  cbn [trace]. repeat split; assumption.
Qed.

(** ** Scenarios and instances *)

Example endswith_msh : PyStr.endswith "mesh.msh" ".msh" = true.
Proof. reflexivity. Qed.

Example endswith_short : PyStr.endswith "msh" ".msh" = false.
Proof. reflexivity. Qed.

Example replace_overlap : PyStr.replace "aaa" "aa" "b" = "ba".
Proof. reflexivity. Qed.

Example replace_empty_old : PyStr.replace "abc" "" "-" = "-a-b-c-".
Proof. reflexivity. Qed.

(** ["out.xdmf"] has [".xdmf"] only as its extension. *)
Example replace_only_final_out :
  PyStr.replace "out.xdmf" ".xdmf" "_facet.xdmf" = facet_path_spec "out.xdmf".
Proof.
  apply (replace_only_final "out"). intros a b H.
  change ("out" +:+ ".xdmf") with "out.xdmf" in H.
  repeat (destruct a as [|? a];
          [rewrite str_app_nil, ?str_app_cons, ?str_app_nil in H;
           try discriminate H|
           rewrite str_app_cons in H; try discriminate H;
           injection H as _ H]).
  now injection H as <-.
Qed.

(** The constructor refuses two tags for one connectivity row. *)
Example Mesh_length_check :
  Mesh [] {[ "line" := [[0; 1]]%Z ]} {[ "name_to_read" := [[1; 2]%Z] ]}
       (boot ∅ ∅)
  = (Raise ValueError, boot ∅ ∅).
Proof. apply Mesh_rejects. vm_compute. reflexivity. Qed.

Example scenario_parse : parse_args scenario_argv = Ok scenario_args.
Proof. reflexivity. Qed.

(** The first scenario of the spec: [out.xdmf] gets the 10 triangles and
    [out_facet.xdmf] the 4 lines, both with two-dimensional points. *)
Example scenario_run :
  let run := main scenario_argv (boot scenario_fs ∅) in
  fst run = Ok tt /\
  disk (snd run) !! "out.xdmf" =
    Some (XdmfFile
            {| points := [[0; 0]; [4607182418800017408; 0];
                          [0; 4607182418800017408];
                          [4607182418800017408; 4607182418800017408]]%Z;
               cells := {[ "triangle" := replicate 10 [0; 1; 2]%Z ]};
               cell_data := {[ "name_to_read" := [replicate 10 1%Z] ]} |}) /\
  disk (snd run) !! "out_facet.xdmf" =
    Some (XdmfFile
            {| points := [[0; 0]; [4607182418800017408; 0];
                          [0; 4607182418800017408];
                          [4607182418800017408; 4607182418800017408]]%Z;
               cells := {[ "line" := [[0; 1]; [1; 3]; [3; 2]; [2; 0]]%Z ]};
               cell_data := {[ "name_to_read" := [[2; 2; 3; 3]%Z] ]} |}).
Proof. vm_compute. repeat split. Qed.

(** The third scenario: degree 2 on a mesh without quadratic blocks. *)
Example quadratic_run :
  let run := main quadratic_argv (boot scenario_fs ∅) in
  fst run = Raise (LookupError "line3") /\
  written_paths (trace (snd run)) = [] /\
  disk (snd run) = scenario_fs.
Proof. vm_compute. repeat split. Qed.

(** C5 (against the order the claim gives): in the run of the first
    scenario, which succeeds, the calls are not in the order read,
    extraction of the volume kind, extraction of the boundary kind,
    writes, print: [create_mesh] is called for ["line"] before
    ["triangle"]. *)
Lemma C5_volume_first_fails :
  fst (main scenario_argv (boot scenario_fs ∅)) = Ok tt /\
  ~ (exists (pz : bool) (tri line : OutputMesh),
       trace (snd (main scenario_argv (boot scenario_fs ∅))) =
         [EvRead "mesh.msh";
          EvCreateMesh "triangle" pz;
          EvCreateMesh "line" pz;
          EvWrite "out.xdmf" tri;
          EvWrite "out_facet.xdmf" line;
          EvPrint "Mesh conversion is done."]).
Proof.
  split; [vm_compute; reflexivity|].
  intros (pz & tri & line & H).
  apply (f_equal created_kinds) in H. vm_compute in H. discriminate H.
Qed.

Lemma C10_facet_path_differs_witness :
  PyStr.endswith "out.xdmf" ".xdmf" = true /\
  PyStr.replace "out.xdmf" ".xdmf" "_facet.xdmf" <> "out.xdmf".
Proof.
  split; [reflexivity|].
  apply (C10_facet_path_differs "out.xdmf"). reflexivity.
Defined.

Lemma C6_bad_extension_witness :
  parse_args wrong_extension_argv = Ok wrong_extension_args /\
  (PyStr.endswith (mesh_full_path wrong_extension_args) ".msh" = false \/
   PyStr.endswith (output_full_path wrong_extension_args) ".xdmf" = false) /\
  exists msg,
    main wrong_extension_argv (boot scenario_fs ∅)
      = (Raise (Exception msg), boot scenario_fs ∅) /\
    (msg = "The input file must have the extension .msh" \/
     msg = "The output file must have the extension .xdmf") /\
    trace (snd (main wrong_extension_argv (boot scenario_fs ∅))) = [].
Proof.
  split; [reflexivity|]. split; [left; reflexivity|].
  apply (C6_bad_extension_aborts_before_read
           wrong_extension_argv wrong_extension_args scenario_fs ∅);
    [reflexivity | left; reflexivity].
Defined.

Lemma C9_not_implemented_witness :
  (deg scenario_args = 1 \/ deg scenario_args = 2)%Z /\
  fst (main_body scenario_args (boot scenario_fs ∅)) <> Raise not_implemented.
Proof.
  split; [left; reflexivity|].
  apply (C9_not_implemented_unreachable scenario_args scenario_fs ∅).
  left; reflexivity.
Defined.

Lemma C7_output_mesh_witness :
  heap scenario_loaded !! 0 = Some (ObjSource scenario_mesh) /\
  create_mesh 0 "line" true scenario_loaded
    = (Ok 1, snd (create_mesh 0 "line" true scenario_loaded)) /\
  exists (o : OutputMesh) (c : list (list Z))
         (by_kind : gmap string (list Z)) (t : list Z),
    heap (snd (create_mesh 0 "line" true scenario_loaded)) !! 1
      = Some (ObjOutput o) /\
    src_cell_blocks scenario_mesh !! "line" = Some c /\
    src_cell_data scenario_mesh !! "gmsh:physical" = Some by_kind /\
    by_kind !! "line" = Some t /\
    cells o = {["line" := c]} /\
    cell_data o = {["name_to_read" := [t]]} /\
    size (cells o) = 1 /\ size (cell_data o) = 1 /\
    length c = length t.
Proof.
  split; [reflexivity|]. split; [vm_compute; reflexivity|].
  apply (C7_output_mesh_shape scenario_loaded _ 0 1 scenario_mesh "line" true).
  - reflexivity.
  - vm_compute; reflexivity.
Defined.

Lemma C4_prune_z_witness :
  parse_args scenario_argv = Ok scenario_args /\
  points_2d_or_3d scenario_mesh /\
  (forall (k : string) (pz : bool),
      EvCreateMesh k pz
        ∈ trace (snd (main scenario_argv (boot scenario_fs ∅))) ->
      (pz = true <-> mesh_dim scenario_args = 2%Z) /\
      (pz = false <-> mesh_dim scenario_args = 3%Z)) /\
  (forall (p : string) (o : OutputMesh),
      EvWrite p o ∈ trace (snd (main scenario_argv (boot scenario_fs ∅))) ->
      Forall (fun pt : list float64 => length pt = 2) (points o)).
Proof.
  assert (Hpts : points_2d_or_3d scenario_mesh)
    by (repeat (constructor; [right; reflexivity|]); constructor).
  split; [reflexivity|]. split; [exact Hpts|].
  destruct (C4_prune_z scenario_argv scenario_args scenario_fs ∅ eq_refl)
    as (Hflag & Hwritten & _).
  split; [exact Hflag|].
  intros p o Hin.
  apply (Hwritten scenario_mesh p o eq_refl Hpts Hin). reflexivity.
Defined.

Lemma C3_kinds_witness :
  parse_args scenario_argv = Ok scenario_args /\
  forall (k : string) (pz : bool),
    EvCreateMesh k pz ∈ trace (snd (main scenario_argv (boot scenario_fs ∅))) ->
    (deg scenario_args = 1%Z /\ (k = "line" \/ k = "triangle")) \/
    (deg scenario_args = 2%Z /\ (k = "line3" \/ k = "triangle6")).
Proof.
  split; [reflexivity|].
  apply (C3_kinds_by_degree scenario_argv scenario_args scenario_fs ∅).
  reflexivity.
Defined.

Lemma C2_extract_then_write_witness :
  parse_args scenario_argv = Ok scenario_args /\
  forall (pre post : list event) (p : string) (o : OutputMesh),
    trace (snd (main scenario_argv (boot scenario_fs ∅)))
      = (pre ++ EvWrite p o :: post)%list ->
    exists kb kv : string,
      selects (deg scenario_args) kb kv /\
      created_kinds pre = [kb; kv] /\ created_kinds post = [].
Proof.
  split; [reflexivity|].
  apply (C2_extract_both_then_write scenario_argv scenario_args scenario_fs ∅).
  reflexivity.
Defined.

Lemma C5_order_witness :
  parse_args scenario_argv = Ok scenario_args /\
  fst (main scenario_argv (boot scenario_fs ∅)) = Ok tt /\
  exists (m : SourceMesh) (kb kv : string) (line tri : OutputMesh)
         (cb cv : list (list Z)),
    PyStr.endswith (mesh_full_path scenario_args) ".msh" = true /\
    PyStr.endswith (output_full_path scenario_args) ".xdmf" = true /\
    scenario_fs !! mesh_full_path scenario_args = Some (MshFile m) /\
    selects (deg scenario_args) kb kv /\
    src_cell_blocks m !! kb = Some cb /\ cells line = {[kb := cb]} /\
    src_cell_blocks m !! kv = Some cv /\ cells tri = {[kv := cv]} /\
    trace (snd (main scenario_argv (boot scenario_fs ∅))) =
      [EvRead (mesh_full_path scenario_args);
       EvCreateMesh kb (mesh_dim scenario_args =? 2)%Z;
       EvCreateMesh kv (mesh_dim scenario_args =? 2)%Z;
       EvWrite (output_full_path scenario_args) tri;
       EvWrite (PyStr.replace (output_full_path scenario_args)
                              ".xdmf" "_facet.xdmf") line;
       EvPrint "Mesh conversion is done."].
Proof.
  split; [reflexivity|]. split; [vm_compute; reflexivity|].
  apply (C5_order_of_steps scenario_argv scenario_args scenario_fs ∅).
  - reflexivity.
  - vm_compute; reflexivity.
Defined.

(** * Further properties of the script *)

(** ** More on the facet path (line 58) *)

Section FacetPathFacts.

Local Open Scope nat_scope.

Lemma str_app_assoc (s t u : string) : (s +:+ t) +:+ u = s +:+ t +:+ u.
Proof.
  induction s as [|c s IH]; [reflexivity|].
  now rewrite !str_app_cons, IH.
Qed.

(** Two occurrences of [".xdmf"] never overlap: when an occurrence
    starts a string that also ends with [".xdmf"], what follows it is
    empty or ends with [".xdmf"] itself. *)
Lemma xdmf_no_overlap (p rest : string) :
  ".xdmf" +:+ rest = p +:+ ".xdmf" ->
  rest = "" \/ exists p', p = ".xdmf" +:+ p' /\ rest = p' +:+ ".xdmf".
Proof.
  intros H.
  do 5 (destruct p as [|? p];
        [rewrite str_app_nil, ?str_app_cons, ?str_app_nil in H;
         try discriminate H;
         try (injection H as ->; now left)|
         rewrite !str_app_cons in H; try discriminate H]).
  rewrite str_app_nil in H. injection H as <- <- <- <- <- ->.
  right. now exists p.
Qed.

(** An occurrence of [".xdmf"] that is not the end of a string ending
    with [".xdmf"] is followed by a string ending with [".xdmf"]. *)
Lemma xdmf_after_earlier (a b p : string) :
  a +:+ ".xdmf" +:+ b = p +:+ ".xdmf" -> b <> "" ->
  PyStr.endswith b ".xdmf" = true.
Proof.
  revert p. induction a as [|c a IH]; intros p H Hb.
  - rewrite str_app_nil in H. apply xdmf_no_overlap in H as [->|(p' & _ & ->)];
      [congruence | apply endswith_app].
  - destruct p as [|c' p].
    + apply (f_equal String.length) in H.
      rewrite !str_length_app in H. cbn [String.length] in H. lia.
    + rewrite !str_app_cons in H. injection H as _ H. now apply (IH p).
Qed.

(** The scan turns a final [".xdmf"] into a final ["_facet.xdmf"]. *)
Lemma replace_scan_final (fuel : nat) (s : string) :
  PyStr.endswith s ".xdmf" = true ->
  String.length s < fuel ->
  exists q, PyStr.replace_scan fuel ".xdmf" "_facet.xdmf" s
            = q +:+ "_facet.xdmf".
Proof.
  revert s. induction fuel as [|fuel IH]; intros s Hend Hfuel; [lia|].
  cbn [PyStr.replace_scan].
  destruct (PyStr.strip_prefix ".xdmf" s) as [rest|] eqn:E.
  - apply strip_prefix_Some in E. subst s.
    pose proof Hend as Hp. apply endswith_true in Hp as [p Hp].
    apply xdmf_no_overlap in Hp as [->|(p' & _ & ->)].
    + exists "". now rewrite replace_scan_empty by discriminate.
    + destruct (IH (p' +:+ ".xdmf")) as [q Hq].
      * apply endswith_app.
      * rewrite !str_length_app in Hfuel; rewrite ?str_length_app.
        cbn [String.length] in Hfuel |- *. lia.
      * exists ("_facet.xdmf" +:+ q). now rewrite Hq, str_app_assoc.
  - rewrite endswith_unfold in Hend.
    destruct (String.eqb s ".xdmf") eqn:E'.
    + apply String.eqb_eq in E'. subst s. discriminate E.
    + destruct s as [|c s]; [discriminate|].
      cbn [String.length] in Hfuel.
      destruct (IH s Hend ltac:(lia)) as [q Hq].
      exists (String c q). now rewrite Hq.
Qed.

Lemma replace_final (p : string) :
  PyStr.endswith p ".xdmf" = true ->
  exists q, PyStr.replace p ".xdmf" "_facet.xdmf" = q +:+ "_facet.xdmf".
Proof.
  intros Hend. unfold PyStr.replace. apply replace_scan_final; [exact Hend|lia].
Qed.

(** No string ends with both extensions. *)
Lemma msh_xdmf_disjoint (s : string) :
  PyStr.endswith s ".msh" = true -> PyStr.endswith s ".xdmf" = true -> False.
Proof.
  induction s as [|c s IH]; [discriminate|].
  rewrite (endswith_unfold _ ".msh"), (endswith_unfold _ ".xdmf").
  destruct (String.eqb (String c s) ".msh") eqn:E1.
  - apply String.eqb_eq in E1. injection E1 as -> ->.
    intros _ H. vm_compute in H. discriminate H.
  - destruct (String.eqb (String c s) ".xdmf") eqn:E2; [|exact IH].
    apply String.eqb_eq in E2. injection E2 as _ ->.
    intros H _. vm_compute in H. discriminate H.
Qed.

(** Every replaced occurrence makes the string six characters longer;
    a string ending with [old] gains at least one such difference. *)
Lemma replace_scan_gain (fuel : nat) (old new s : string) :
  String.length old <= String.length new ->
  PyStr.endswith s old = true ->
  String.length s < fuel ->
  String.length s + (String.length new - String.length old)
    <= String.length (PyStr.replace_scan fuel old new s).
Proof.
  intros Hlen. revert s.
  induction fuel as [|fuel IH]; intros s Hend Hfuel; [lia|].
  cbn [PyStr.replace_scan].
  destruct (PyStr.strip_prefix old s) as [rest|] eqn:E.
  - apply strip_prefix_Some in E. subst s. rewrite !str_length_app.
    pose proof (replace_scan_length fuel old new rest). lia.
  - rewrite endswith_unfold in Hend.
    destruct (String.eqb s old) eqn:E'.
    + apply String.eqb_eq in E'. subst old.
      rewrite strip_prefix_self in E. discriminate.
    + destruct s as [|c s]; [discriminate|].
      cbn [String.length] in Hfuel |- *. specialize (IH s Hend). lia.
Qed.

(** An occurrence of [".xdmf"] at any place is met by the scan: the
    result has the part before it (never shortened), the longer
    ["_facet.xdmf"], and a scan of the part after it. *)
Lemma replace_scan_earlier (fuel : nat) (a b : string) :
  String.length (a +:+ ".xdmf" +:+ b) < fuel ->
  exists fuel',
    String.length b < fuel' /\
    String.length a + 11
      + String.length (PyStr.replace_scan fuel' ".xdmf" "_facet.xdmf" b)
    <= String.length
         (PyStr.replace_scan fuel ".xdmf" "_facet.xdmf"
            (a +:+ ".xdmf" +:+ b)).
Proof.
  revert a. induction fuel as [|fuel IH]; intros a Hfuel; [lia|].
  cbn [PyStr.replace_scan].
  destruct (PyStr.strip_prefix ".xdmf" (a +:+ ".xdmf" +:+ b))
    as [rest|] eqn:E.
  - apply strip_prefix_Some in E.
    destruct a as [|c a].
    + rewrite str_app_nil in E, Hfuel.
      apply String.app_inj in E. subst rest.
      exists fuel. rewrite !str_length_app in Hfuel; rewrite ?str_length_app.
      cbn [String.length] in Hfuel |- *. lia.
    + (* the match starts inside [a]: it lies within [a] *)
      assert (Ha : exists a', String c a = ".xdmf" +:+ a').
      { clear -E.
        do 4 (destruct a as [|? a];
              [rewrite !str_app_cons, ?str_app_nil in E;
               discriminate E|]).
        rewrite !str_app_cons in E.
        injection E as -> -> -> -> -> _. now exists a. }
      destruct Ha as [a' Ha]. rewrite Ha in E, Hfuel |- *.
      rewrite str_app_assoc in E, Hfuel.
      apply String.app_inj in E. subst rest.
      destruct (IH a') as (fuel' & Hb & Hle).
      * rewrite !str_length_app in Hfuel; rewrite ?str_length_app.
        cbn [String.length] in Hfuel |- *. lia.
      * exists fuel'. split; [exact Hb|].
        rewrite !str_length_app. cbn [String.length]. lia.
  - destruct a as [|c a].
    + rewrite str_app_nil in E.
      assert (PyStr.strip_prefix ".xdmf" (".xdmf" +:+ b) = Some b)
        by now apply strip_prefix_Some.
      congruence.
    + rewrite (str_app_cons c a) in Hfuel. rewrite (str_app_cons c a).
      cbn [String.length] in Hfuel |- *.
      destruct (IH a ltac:(lia)) as (fuel' & Hb & Hle).
      exists fuel'. split; [exact Hb|]. lia.
Qed.

End FacetPathFacts.

(** X1: for an output path that ends with [".xdmf"], the facet path
    ends with ["_facet.xdmf"], so it has the extension [".xdmf"] too. *)
Theorem X1_facet_path_extension (p : string) :
  PyStr.endswith p ".xdmf" = true ->
  PyStr.endswith (PyStr.replace p ".xdmf" "_facet.xdmf") "_facet.xdmf" = true /\
  PyStr.endswith (PyStr.replace p ".xdmf" "_facet.xdmf") ".xdmf" = true.
Proof.
  intros Hend. destruct (replace_final p Hend) as [q ->]. split.
  - apply endswith_app.
  - apply (proj2 (endswith_true _ _)). exists (q +:+ "_facet").
    now rewrite str_app_assoc.
Qed.

Lemma X1_facet_path_extension_witness :
  PyStr.endswith "a.xdmf/b.xdmf" ".xdmf" = true /\
  PyStr.endswith (PyStr.replace "a.xdmf/b.xdmf" ".xdmf" "_facet.xdmf")
                 "_facet.xdmf" = true /\
  PyStr.endswith (PyStr.replace "a.xdmf/b.xdmf" ".xdmf" "_facet.xdmf")
                 ".xdmf" = true.
Proof.
  split; [reflexivity|].
  apply (X1_facet_path_extension "a.xdmf/b.xdmf"). reflexivity.
Defined.

(** X2: the facet path of [stem.xdmf] is [stem_facet.xdmf] exactly when
    [".xdmf"] occurs in the output path only as its end. *)
Theorem X2_facet_path_exact_iff (p : string) :
  PyStr.replace (p +:+ ".xdmf") ".xdmf" "_facet.xdmf" = p +:+ "_facet.xdmf"
  <->
  (forall a b : string, p +:+ ".xdmf" = a +:+ ".xdmf" +:+ b -> b = "").
Proof.
  split.
  - intros Heq a b Hab. destruct b as [|cb b]; [reflexivity|]. exfalso.
    unfold PyStr.replace in Heq. rewrite Hab in Heq.
    destruct (replace_scan_earlier
                (S (String.length (a +:+ ".xdmf" +:+ String cb b)))
                a (String cb b) ltac:(lia)) as (fuel' & Hb & Hle).
    rewrite Heq in Hle.
    assert (Hend : PyStr.endswith (String cb b) ".xdmf" = true)
      by (apply (xdmf_after_earlier a _ p); [now symmetry | discriminate]).
    pose proof (replace_scan_gain fuel' ".xdmf" "_facet.xdmf" (String cb b))
      as Hgain.
    cbn [String.length] in Hgain.
    specialize (Hgain ltac:(lia) Hend Hb).
    apply (f_equal String.length) in Hab.
    rewrite !str_length_app in Hab. rewrite !str_length_app in Hle.
    cbn [String.length] in *. lia.
  - intros Honly. unfold PyStr.replace.
    apply replace_scan_only_final; [discriminate | exact Honly | lia].
Qed.

(** ** More on the run *)

Lemma facet_path_ne (p : string) :
  PyStr.endswith p ".xdmf" = true ->
  PyStr.replace p ".xdmf" "_facet.xdmf" <> p.
Proof.
  intros Hend Heq.
  pose proof (replace_longer p ".xdmf" "_facet.xdmf") as Hlong.
  rewrite Heq in Hlong. cbn [String.length] in Hlong.
  specialize (Hlong ltac:(discriminate) ltac:(lia) Hend). lia.
Qed.

Lemma input_not_facet (i o : string) :
  PyStr.endswith i ".msh" = true ->
  PyStr.endswith o ".xdmf" = true ->
  i <> o /\ i <> PyStr.replace o ".xdmf" "_facet.xdmf".
Proof.
  intros Hi Ho. split; intros ->.
  - exact (msh_xdmf_disjoint _ Hi Ho).
  - destruct (replace_final o Ho) as [q Hq]. rewrite Hq in Hi.
    apply (msh_xdmf_disjoint _ Hi).
    apply (proj2 (endswith_true _ _)). exists (q +:+ "_facet").
    now rewrite str_app_assoc.
Qed.

Lemma selects_of_choice (d : Z) :
  (d = 1 \/ d = 2)%Z -> exists kb kv, selects d kb kv.
Proof. intros [->| ->]; do 2 eexists; constructor. Qed.

(** X3: the call history of every run is a prefix of the history of a
    successful run: read, [create_mesh] for the boundary kind,
    [create_mesh] for the volume kind, write to the output path, write
    to the facet path, print; a run that fails stops somewhere in this
    list and makes no other call. *)
Theorem X3_history_is_prefix (argv : cli) (args : Namespace)
    (fs : gmap string file) (ro : gset string) :
  parse_args argv = Ok args ->
  exists (kb kv : string) (line tri : OutputMesh),
    selects (deg args) kb kv /\
    trace (snd (main argv (boot fs ro))) `prefix_of`
      [EvRead (mesh_full_path args);
       EvCreateMesh kb (mesh_dim args =? 2)%Z;
       EvCreateMesh kv (mesh_dim args =? 2)%Z;
       EvWrite (output_full_path args) tri;
       EvWrite (PyStr.replace (output_full_path args) ".xdmf" "_facet.xdmf")
               line;
       EvPrint "Mesh conversion is done."].
Proof.
  intros Hparse. rewrite main_run, Hparse.
  apply parse_args_Ok in Hparse as (_ & _ & _ & _ & _ & Hdeg).
  destruct (selects_of_choice _ Hdeg) as (kb0 & kv0 & Hsel0).
  run_cases args fs ro; cbn [trace boot].
  - exists kb0, kv0, empty_mesh, empty_mesh. split; [exact Hsel0|].
    eexists; reflexivity.
  - exists kb0, kv0, empty_mesh, empty_mesh. split; [exact Hsel0|].
    eexists; reflexivity.
  - exists kb0, kv0, empty_mesh, empty_mesh. split; [exact Hsel0|].
    eexists; reflexivity.
  - exists kb0, kv0, empty_mesh, empty_mesh. split; [exact Hsel0|].
    eexists; reflexivity.
  - exists kb, kv, empty_mesh, empty_mesh. split; [assumption|].
    eexists; reflexivity.
  - exists kb, kv, empty_mesh, empty_mesh. split; [assumption|].
    eexists; reflexivity.
  - exists kb, kv, empty_mesh, tri. split; [assumption|].
    eexists; reflexivity.
  - exists kb, kv, line, tri. split; [assumption|].
    eexists; reflexivity.
  - exists kb, kv, line, tri. split; [assumption|].
    eexists; reflexivity.
Qed.

Lemma X3_history_is_prefix_witness :
  parse_args quadratic_argv
    = Ok {| mesh_full_path := "mesh.msh"; output_full_path := "out.xdmf";
            mesh_dim := 2; deg := 2 |} /\
  exists (kb kv : string) (line tri : OutputMesh),
    selects 2 kb kv /\
    trace (snd (main quadratic_argv (boot scenario_fs ∅))) `prefix_of`
      [EvRead "mesh.msh";
       EvCreateMesh kb true;
       EvCreateMesh kv true;
       EvWrite "out.xdmf" tri;
       EvWrite (PyStr.replace "out.xdmf" ".xdmf" "_facet.xdmf") line;
       EvPrint "Mesh conversion is done."].
Proof.
  split; [reflexivity|].
  apply (X3_history_is_prefix quadratic_argv _ scenario_fs ∅ eq_refl).
Defined.

(** X4: for a command line that argparse accepts, [main] reaches its
    call of [print] (line 60) exactly when the run returns, and the
    only text it ever passes to [print] is the completion notice. *)
Theorem X4_notice_iff_success (argv : cli) (args : Namespace)
    (fs : gmap string file) (ro : gset string) :
  parse_args argv = Ok args ->
  (EvPrint "Mesh conversion is done." ∈ trace (snd (main argv (boot fs ro)))
   <-> fst (main argv (boot fs ro)) = Ok tt) /\
  (forall msg : string,
      EvPrint msg ∈ trace (snd (main argv (boot fs ro))) ->
      msg = "Mesh conversion is done.").
Proof.
  intros Hparse. rewrite main_run, Hparse. split; [split|].
  - intros Hin. run_cases args fs ro; in_trace Hin. reflexivity.
  - intros Hok. run_cases args fs ro; try discriminate Hok.
    cbn [trace]. do 5 apply list_elem_of_further. apply list_elem_of_here.
  - intros msg Hin. run_cases args fs ro; in_trace Hin.
    now injection Hin as ->.
Qed.

Lemma X4_notice_witness :
  parse_args scenario_argv = Ok scenario_args /\
  (EvPrint "Mesh conversion is done."
     ∈ trace (snd (main scenario_argv (boot scenario_fs ∅)))
   <-> fst (main scenario_argv (boot scenario_fs ∅)) = Ok tt) /\
  (forall msg : string,
      EvPrint msg ∈ trace (snd (main scenario_argv (boot scenario_fs ∅))) ->
      msg = "Mesh conversion is done.").
Proof.
  split; [reflexivity|].
  apply (X4_notice_iff_success scenario_argv scenario_args scenario_fs ∅).
  reflexivity.
Defined.

(** X6: no run writes to its input path: the input file is on the disk
    after the run as it was before, whatever the arguments. *)
Theorem X6_input_file_untouched (args : Namespace) (fs : gmap string file)
    (ro : gset string) :
  (mesh_full_path args
   ∉ written_paths (trace (snd (main_body args (boot fs ro))))) /\
  disk (snd (main_body args (boot fs ro))) !! mesh_full_path args
    = fs !! mesh_full_path args.
Proof.
  run_cases args fs ro; cbn [trace disk boot written_paths omap list_omap];
    try (split; [apply not_elem_of_nil | reflexivity]).
  all: match goal with
       | Hi : PyStr.endswith _ ".msh" = true,
         Ho : PyStr.endswith _ ".xdmf" = true |- _ =>
           destruct (input_not_facet _ _ Hi Ho) as [Hne1 Hne2]
       end.
  all: split;
    [rewrite ?elem_of_cons, elem_of_nil; intuition congruence|
     rewrite ?lookup_insert_ne by congruence; reflexivity].
Qed.

Lemma extract_is_Ok (m : SourceMesh) (k : string) (pz : bool)
    (c : list (list Z)) (d : gmap string (list Z)) (t : list Z) :
  src_cell_blocks m !! k = Some c ->
  src_cell_data m !! "gmsh:physical" = Some d ->
  d !! k = Some t ->
  extract m k pz =
  Ok {| points := if pz then first_two_columns (src_points m)
                  else src_points m;
        cells := {[k := c]};
        cell_data := {["name_to_read" := [t]]} |}.
Proof. intros Hc Hd Ht. unfold extract. now rewrite Hc, Hd, Ht. Qed.

(** X8: a run succeeds exactly when both extensions are right, the
    input path holds a mesh file that has a block and physical tags for
    both cell kinds of the degree, and neither the output path nor the
    facet path refuses the write. *)
Theorem X8_success_iff (args : Namespace) (fs : gmap string file)
    (ro : gset string) :
  fst (main_body args (boot fs ro)) = Ok tt <->
  PyStr.endswith (mesh_full_path args) ".msh" = true /\
  PyStr.endswith (output_full_path args) ".xdmf" = true /\
  (exists (m : SourceMesh) (kb kv : string) (d : gmap string (list Z)),
      fs !! mesh_full_path args = Some (MshFile m) /\
      selects (deg args) kb kv /\
      is_Some (src_cell_blocks m !! kb) /\
      is_Some (src_cell_blocks m !! kv) /\
      src_cell_data m !! "gmsh:physical" = Some d /\
      is_Some (d !! kb) /\ is_Some (d !! kv)) /\
  (output_full_path args ∉ ro) /\
  (PyStr.replace (output_full_path args) ".xdmf" "_facet.xdmf" ∉ ro).
Proof.
  split.
  - intros Hok. run_cases args fs ro; try discriminate Hok.
    repeat split; try assumption.
    match goal with
    | Hb : extract ?m ?kb _ = Ok _, Hv : extract ?m ?kv _ = Ok _ |- _ =>
        apply extract_Ok in Hb as (cb & d & tb & Hcb & Hd & Htb & _);
        apply extract_Ok in Hv as (cv & d' & tv & Hcv & Hd' & Htv & _);
        assert (d' = d) by congruence; subst d';
        exists m, kb, kv, d
    end.
    repeat split; eauto.
  - intros (Hin & Hout & (m & kb & kv & d & Hfs & Hsel & [cb Hcb] & [cv Hcv]
                         & Hd & [tb Htb] & [tv Htv]) & Hwo & Hwf).
    pose proof (extract_is_Ok m kb (mesh_dim args =? 2)%Z _ _ _ Hcb Hd Htb)
      as Hb.
    pose proof (extract_is_Ok m kv (mesh_dim args =? 2)%Z _ _ _ Hcv Hd Htv)
      as Hv.
    run_cases args fs ro; try reflexivity; try congruence; exfalso;
      try (match goal with H : forall m, _ <> _ |- _ =>
             exact (H m Hfs) end);
      try (destruct Hsel; congruence);
      match goal with H : _ !! _ = Some (MshFile ?m') |- _ =>
        assert (m' = m) by congruence; subst m' end;
      match goal with H : selects _ ?a ?b |- _ =>
        destruct (selects_fun _ _ _ _ _ Hsel H) as [-> ->] end;
      congruence.
Qed.

(** X9: after a run that succeeds, the file at the output path holds
    the connectivity rows and the physical tags of the volume kind of
    the source mesh, the file at the facet path those of the boundary
    kind, each under the single data key ["name_to_read"], and both hold
    the same points: the source points, cut to two components when the
    declared dimension is 2. *)
Theorem X9_output_files_content (args : Namespace) (fs : gmap string file)
    (ro : gset string) :
  fst (main_body args (boot fs ro)) = Ok tt ->
  exists (m : SourceMesh) (kb kv : string) (cb cv : list (list Z))
         (d : gmap string (list Z)) (tb tv : list Z),
    fs !! mesh_full_path args = Some (MshFile m) /\
    selects (deg args) kb kv /\
    src_cell_blocks m !! kb = Some cb /\
    src_cell_blocks m !! kv = Some cv /\
    src_cell_data m !! "gmsh:physical" = Some d /\
    d !! kb = Some tb /\ d !! kv = Some tv /\
    disk (snd (main_body args (boot fs ro))) !! output_full_path args =
      Some (XdmfFile
              {| points := if (mesh_dim args =? 2)%Z
                           then first_two_columns (src_points m)
                           else src_points m;
                 cells := {[kv := cv]};
                 cell_data := {["name_to_read" := [tv]]} |}) /\
    disk (snd (main_body args (boot fs ro)))
      !! PyStr.replace (output_full_path args) ".xdmf" "_facet.xdmf" =
      Some (XdmfFile
              {| points := if (mesh_dim args =? 2)%Z
                           then first_two_columns (src_points m)
                           else src_points m;
                 cells := {[kb := cb]};
                 cell_data := {["name_to_read" := [tb]]} |}).
Proof.
  intros Hok. run_cases args fs ro; try discriminate Hok.
  match goal with
  | Hb : extract ?m ?kb _ = Ok _, Hv : extract ?m ?kv _ = Ok _ |- _ =>
      apply extract_Ok in Hb as (cb & d & tb & Hcb & Hd & Htb & ->);
      apply extract_Ok in Hv as (cv & d' & tv & Hcv & Hd' & Htv & ->);
      assert (d' = d) by congruence; subst d';
      exists m, kb, kv, cb, cv, d, tb, tv
  end.
  cbn [disk]. repeat split; try assumption.
  - rewrite lookup_insert_ne by now apply facet_path_ne.
    now rewrite lookup_insert_eq.
  - now rewrite lookup_insert_eq.
Qed.

Lemma X9_output_files_content_witness :
  fst (main_body scenario_args (boot scenario_fs ∅)) = Ok tt /\
  exists (m : SourceMesh) (kb kv : string) (cb cv : list (list Z))
         (d : gmap string (list Z)) (tb tv : list Z),
    scenario_fs !! mesh_full_path scenario_args = Some (MshFile m) /\
    selects (deg scenario_args) kb kv /\
    src_cell_blocks m !! kb = Some cb /\
    src_cell_blocks m !! kv = Some cv /\
    src_cell_data m !! "gmsh:physical" = Some d /\
    d !! kb = Some tb /\ d !! kv = Some tv /\
    disk (snd (main_body scenario_args (boot scenario_fs ∅)))
      !! output_full_path scenario_args =
      Some (XdmfFile
              {| points := if (mesh_dim scenario_args =? 2)%Z
                           then first_two_columns (src_points m)
                           else src_points m;
                 cells := {[kv := cv]};
                 cell_data := {["name_to_read" := [tv]]} |}) /\
    disk (snd (main_body scenario_args (boot scenario_fs ∅)))
      !! PyStr.replace (output_full_path scenario_args) ".xdmf" "_facet.xdmf" =
      Some (XdmfFile
              {| points := if (mesh_dim scenario_args =? 2)%Z
                           then first_two_columns (src_points m)
                           else src_points m;
                 cells := {[kb := cb]};
                 cell_data := {["name_to_read" := [tb]]} |}).
Proof.
  assert (H : fst (main_body scenario_args (boot scenario_fs ∅)) = Ok tt)
    by (vm_compute; reflexivity).
  split; [exact H|].
  exact (X9_output_files_content scenario_args scenario_fs ∅ H).
Defined.

(** ** More on create_mesh (lines 15-21) *)

(** X10: with the flag true, [create_mesh] keeps the number of points
    and their order, and the point at each index is the source point cut
    to its first two components: the node indices of the connectivity
    rows still name the same points. *)
Theorem X10_prune_keeps_points (w w' : world) (l l' : loc) (m : SourceMesh)
    (k : string) :
  heap w !! l = Some (ObjSource m) ->
  create_mesh l k true w = (Ok l', w') ->
  exists o : OutputMesh,
    heap w' !! l' = Some (ObjOutput o) /\
    length (points o) = length (src_points m) /\
    forall (i : nat) (pt : list float64),
      src_points m !! i = Some pt ->
      points o !! i = Some (take 2 pt) /\
      (forall j : nat, (j < 2)%nat -> take 2 pt !! j = pt !! j).
Proof.
  intros Hl Hrun. rewrite (create_mesh_run w l m) in Hrun by exact Hl.
  destruct (extract m k true) as [o|e] eqn:E; [|discriminate].
  unfold alloc in Hrun. injection Hrun as <- <-.
  exists o. cbn [heap]. split; [apply list_lookup_middle; reflexivity|].
  apply extract_Ok in E as (c & d & t & _ & _ & _ & ->). cbn [points].
  unfold first_two_columns. split; [apply length_fmap|].
  intros i pt Hpt. split.
  - now rewrite list_lookup_fmap, Hpt.
  - intros j Hj. now apply lookup_take_lt.
Qed.

Lemma X10_prune_keeps_points_witness :
  heap scenario_loaded !! 0 = Some (ObjSource scenario_mesh) /\
  create_mesh 0 "triangle" true scenario_loaded
    = (Ok 1, snd (create_mesh 0 "triangle" true scenario_loaded)) /\
  exists o : OutputMesh,
    heap (snd (create_mesh 0 "triangle" true scenario_loaded)) !! 1
      = Some (ObjOutput o) /\
    length (points o) = length (src_points scenario_mesh) /\
    forall (i : nat) (pt : list float64),
      src_points scenario_mesh !! i = Some pt ->
      points o !! i = Some (take 2 pt) /\
      (forall j : nat, (j < 2)%nat -> take 2 pt !! j = pt !! j).
Proof.
  split; [reflexivity|]. split; [vm_compute; reflexivity|].
  apply (X10_prune_keeps_points scenario_loaded _ 0 1 scenario_mesh "triangle").
  - reflexivity.
  - vm_compute; reflexivity.
Defined.

(** X11: on a source mesh whose points have at most two components the
    flag changes nothing: [create_mesh] returns the same result and
    reaches the same world with the flag true as with the flag false. *)
Theorem X11_flat_points_flag_irrelevant (w : world) (l : loc)
    (m : SourceMesh) (k : string) :
  heap w !! l = Some (ObjSource m) ->
  Forall (fun pt : list float64 => (length pt <= 2)%nat) (src_points m) ->
  create_mesh l k true w = create_mesh l k false w.
Proof.
  intros Hl Hflat. rewrite !(create_mesh_run w l m) by exact Hl.
  assert (Hpts : first_two_columns (src_points m) = src_points m).
  { unfold first_two_columns.
    induction Hflat as [|pt pts Hpt _ IH]; [reflexivity|].
    cbn [fmap list_fmap]. f_equal; [now apply take_ge | exact IH]. }
  unfold extract.
  destruct (src_cell_blocks m !! k); [|reflexivity].
  destruct (src_cell_data m !! "gmsh:physical") as [d|]; [|reflexivity].
  destruct (d !! k); [|reflexivity].
  now rewrite Hpts.
Qed.

Lemma X11_flat_points_witness :
  heap flat_loaded !! 0 = Some (ObjSource flat_mesh) /\
  Forall (fun pt : list float64 => (length pt <= 2)%nat)
         (src_points flat_mesh) /\
  create_mesh 0 "line" true flat_loaded = create_mesh 0 "line" false flat_loaded.
Proof.
  assert (Hflat : Forall (fun pt : list float64 => (length pt <= 2)%nat)
                         (src_points flat_mesh))
    by (repeat (constructor; [cbn; lia|]); constructor).
  split; [reflexivity|]. split; [exact Hflat|].
  exact (X11_flat_points_flag_irrelevant flat_loaded 0 flat_mesh "line"
           eq_refl Hflat).
Defined.

(** X12: two extractions from the same source mesh do not depend on
    their order: when [create_mesh] for [k1] and then for [k2] returns,
    so does [create_mesh] for [k2] and then for [k1], with the same two
    references, and the two mesh objects are the same, exchanged. *)
Theorem X12_extractions_commute (w w1 w2 : world) (l l1 l2 : loc)
    (m : SourceMesh) (k1 k2 : string) (pz : bool) :
  heap w !! l = Some (ObjSource m) ->
  create_mesh l k1 pz w = (Ok l1, w1) ->
  create_mesh l k2 pz w1 = (Ok l2, w2) ->
  exists w1' w2' : world,
    create_mesh l k2 pz w = (Ok l1, w1') /\
    create_mesh l k1 pz w1' = (Ok l2, w2') /\
    l1 <> l2 /\
    heap w2' !! l1 = heap w2 !! l2 /\
    heap w2' !! l2 = heap w2 !! l1 /\
    is_Some (heap w2 !! l1) /\ is_Some (heap w2 !! l2).
Proof.
  intros Hl H1 H2.
  rewrite (create_mesh_run w l m) in H1 by exact Hl.
  destruct (extract m k1 pz) as [o1|e] eqn:E1; [|discriminate].
  unfold alloc in H1. injection H1 as <- <-.
  rewrite (create_mesh_run _ l m) in H2
    by (cbn [heap]; now apply lookup_app_l_Some).
  destruct (extract m k2 pz) as [o2|e] eqn:E2; [|discriminate].
  unfold alloc in H2. cbn [heap disk unwritable trace] in H2.
  injection H2 as <- <-.
  do 2 eexists. split; [|split].
  - rewrite (create_mesh_run w l m) by exact Hl. rewrite E2. reflexivity.
  - rewrite (create_mesh_run _ l m)
      by (cbn [heap]; now apply lookup_app_l_Some).
    rewrite E1. unfold alloc. cbn [heap disk unwritable trace].
    rewrite !length_app. reflexivity.
  - cbn [heap]. rewrite !length_app. cbn [length].
    assert (Ha : forall (h : list obj) (a b : obj),
               (((h ++ [a]) ++ [b])%list) !! length h = Some a)
      by (intros h a b; rewrite <- app_assoc; now apply list_lookup_middle).
    assert (Hb : forall (h : list obj) (a b : obj),
               (((h ++ [a]) ++ [b])%list) !! (length h + 1)%nat = Some b)
      by (intros h a b; apply list_lookup_middle; rewrite length_app;
          reflexivity).
    rewrite !Ha, !Hb. repeat split; eauto. lia.
Qed.

Lemma X12_extractions_commute_witness :
  heap scenario_loaded !! 0 = Some (ObjSource scenario_mesh) /\
  create_mesh 0 "line" true scenario_loaded
    = (Ok 1, snd (create_mesh 0 "line" true scenario_loaded)) /\
  create_mesh 0 "triangle" true
      (snd (create_mesh 0 "line" true scenario_loaded))
    = (Ok 2, snd (create_mesh 0 "triangle" true
                    (snd (create_mesh 0 "line" true scenario_loaded)))) /\
  exists w1' w2' : world,
    create_mesh 0 "triangle" true scenario_loaded = (Ok 1, w1') /\
    create_mesh 0 "line" true w1' = (Ok 2, w2') /\
    1 <> 2 /\
    heap w2' !! 1
      = heap (snd (create_mesh 0 "triangle" true
                     (snd (create_mesh 0 "line" true scenario_loaded)))) !! 2 /\
    heap w2' !! 2
      = heap (snd (create_mesh 0 "triangle" true
                     (snd (create_mesh 0 "line" true scenario_loaded)))) !! 1 /\
    is_Some (heap (snd (create_mesh 0 "triangle" true
                     (snd (create_mesh 0 "line" true scenario_loaded)))) !! 1) /\
    is_Some (heap (snd (create_mesh 0 "triangle" true
                     (snd (create_mesh 0 "line" true scenario_loaded)))) !! 2).
Proof.
  split; [reflexivity|]. split; [vm_compute; reflexivity|].
  split; [vm_compute; reflexivity|].
  apply (X12_extractions_commute scenario_loaded
           (snd (create_mesh 0 "line" true scenario_loaded))
           (snd (create_mesh 0 "triangle" true
                   (snd (create_mesh 0 "line" true scenario_loaded))))
           0 1 2 scenario_mesh "line" "triangle" true).
  - reflexivity.
  - vm_compute; reflexivity.
  - vm_compute; reflexivity.
Defined.
